(** * AI Vault Coach backend: a shallow embedding of its request handlers

    The repository holds successive versions of one Express server: index.js
    and the files part_000 to part_004, two of which hold two servers each.
    Every handler is embedded as a function of the parsed JSON request body
    (the object body-parser leaves in [req.body]), of the process-wide
    [conversationHistory] where the server keeps one, and of what the two
    external collaborators do in this run (the completion API and the row
    store; [Math.random] for the one handler that draws).  It returns the HTTP
    response, the calls of the completion API it made and the history it
    leaves behind.

    Data is modelled as JavaScript has it: JSON values with IEEE-754 doubles
    (Rocq's primitive floats), strings as sequences of UTF-8 bytes, the
    coercions [ToBoolean], [ToString] and [ToNumber] written out, and a thrown
    exception as [None] in the option monad.  One module per server carries
    the names of the source. *)

From Stdlib Require Import ZArith List String Ascii Bool Floats Uint63 DecimalString Lia.
Import ListNotations.
Open Scope string_scope.

(** ** Strings *)

(** The double quote and the line feed, which a Rocq string literal cannot
    hold as written in the JavaScript source. *)
Definition dq : string := String (ascii_of_nat 34) EmptyString.
Definition nl : string := String (ascii_of_nat 10) EmptyString.

(** [lines.join(nl)] *)
Fixpoint join (sep : string) (l : list string) : string :=
  match l with
  | [] => ""
  | [s] => s
  | s :: rest => s ++ sep ++ join sep rest
  end.

Definition lower_ascii (c : ascii) : ascii :=
  let n := nat_of_ascii c in
  if (65 <=? n)%nat && (n <=? 90)%nat then ascii_of_nat (n + 32) else c.

(** [String.prototype.toLowerCase] on UTF-8 text: the letters A-Z are mapped
    to a-z.  Bytes of other code points are left as they are.  The only code
    points outside ASCII whose lower case holds an ASCII letter are U+212A
    (k) and U+0130 (i followed by U+0307); no keyword searched for in a
    lowercased text below holds a k or ends in i, so the searches agree with
    JavaScript's. *)
Fixpoint toLowerCase (s : string) : string :=
  match s with
  | EmptyString => EmptyString
  | String c r => String (lower_ascii c) (toLowerCase r)
  end.

(** [s.includes(kw)] *)
Fixpoint includes (s kw : string) : bool :=
  String.prefix kw s ||
  match s with
  | EmptyString => false
  | String _ r => includes r kw
  end.

Definition code (c : ascii) : N := N_of_ascii c.

(** One-, two- and three-byte encodings of the code points that
    [String.prototype.trim] strips (WhiteSpace and LineTerminator):
    U+0009..U+000D, U+0020; U+00A0; U+1680, U+2000..U+200A, U+2028, U+2029,
    U+202F, U+205F, U+3000, U+FEFF. *)
Definition ws1 (a : ascii) : bool :=
  let x := code a in ((9 <=? x) && (x <=? 13) || (x =? 32))%N.

Definition ws2 (a b : ascii) : bool :=
  ((code a =? 194) && (code b =? 160))%N.

Definition ws3 (a b c : ascii) : bool :=
  let x := code a in let y := code b in let z := code c in
  ((x =? 225) && (y =? 154) && (z =? 128)
   || (x =? 226) && (y =? 128)
      && ((128 <=? z) && (z <=? 138) || (z =? 168) || (z =? 169) || (z =? 175))
   || (x =? 226) && (y =? 129) && (z =? 159)
   || (x =? 227) && (y =? 128) && (z =? 128)
   || (x =? 239) && (y =? 187) && (z =? 191))%N.

Fixpoint trimStart (s : string) : string :=
  match s with
  | String a r =>
      if ws1 a then trimStart r
      else match r with
           | String b r2 =>
               if ws2 a b then trimStart r2
               else match r2 with
                    | String c r3 => if ws3 a b c then trimStart r3 else s
                    | EmptyString => s
                    end
           | EmptyString => s
           end
  | EmptyString => s
  end.

Fixpoint rev_string (acc s : string) : string :=
  match s with
  | EmptyString => acc
  | String c r => rev_string (String c acc) r
  end.

(** [trimStart] on the reversed text: the bytes of a code point come last
    byte first. *)
Fixpoint trimStart_rev (s : string) : string :=
  match s with
  | String a r =>
      if ws1 a then trimStart_rev r
      else match r with
           | String b r2 =>
               if ws2 b a then trimStart_rev r2
               else match r2 with
                    | String c r3 => if ws3 c b a then trimStart_rev r3 else s
                    | EmptyString => s
                    end
           | EmptyString => s
           end
  | EmptyString => s
  end.

Definition trimEnd (s : string) : string :=
  rev_string "" (trimStart_rev (rev_string "" s)).

Definition trim (s : string) : string := trimEnd (trimStart s).

(** ** Numbers *)

Definition number := float.

(** The abstract relational comparison [x < y] of two Numbers: [None] is
    ECMAScript's undefined, the answer when an operand is NaN. *)
Definition IsLessThan (x y : number) : option bool :=
  match PrimFloat.compare x y with
  | FLt => Some true
  | FNotComparable => None
  | FEq | FGt => Some false
  end.

(** [x < y] and [x >= y] on Numbers. *)
Definition lt (x y : number) : bool :=
  match IsLessThan x y with Some true => true | _ => false end.

Definition ge (x y : number) : bool :=
  match IsLessThan x y with Some false => true | _ => false end.

Definition number_of_Z (n : Z) : number :=
  let a := PrimFloat.of_uint63 (Uint63.of_Z (Z.abs n)) in
  if (n <? 0)%Z then PrimFloat.opp a else a.

(** [floor (x + num / 2)] for the finite double [x = (-1)^s * m * 2^e] with
    [e < 0]; such a double is below 2^53 in magnitude, so the result is exact. *)
Definition floor_plus_half (halves : Z) (s : bool) (m : positive) (e : Z) : number :=
  let k := (- e)%Z in
  let v := if s then (- Z.pos m)%Z else Z.pos m in
  let n := ((2 * v + halves * 2 ^ k) / 2 ^ (k + 1))%Z in
  if (n =? 0)%Z then (if s then PrimFloat.opp PrimFloat.zero else PrimFloat.zero)
  else number_of_Z n.

(** [Math.round]: the nearest integer, ties towards +Infinity; NaN, the
    infinities, the zeros and integers are returned as they are. *)
Definition Math_round (x : number) : number :=
  match Prim2SF x with
  | S754_finite s m e => if (0 <=? e)%Z then x else floor_plus_half 1 s m e
  | _ => x
  end.

(** [Math.floor] *)
Definition Math_floor (x : number) : number :=
  match Prim2SF x with
  | S754_finite s m e => if (0 <=? e)%Z then x else floor_plus_half 0 s m e
  | _ => x
  end.

(** ** JSON values and coercions *)

(** The values [JSON.parse] builds, and [undefined] for a property that is
    absent.  An object is the list of its own properties. *)
#[warnings="-register-all"]
Inductive jsval : Type :=
| JUndefined
| JNull
| JBool (b : bool)
| JNum (x : number)
| JStr (s : string)
| JArr (items : list jsval)
| JObj (props : list (string * jsval)).

Definition jsobj := list (string * jsval).

(** [o.k] for a key that [Object.prototype] does not define: the own
    property, else [undefined]. *)
Fixpoint get (o : jsobj) (k : string) : jsval :=
  match o with
  | [] => JUndefined
  | (k', v) :: rest => if String.eqb k' k then v else get rest k
  end.

Definition has_own (o : jsobj) (k : string) : bool :=
  existsb (fun p => String.eqb (fst p) k) o.

(** [v === undefined ? d : v], a destructuring default. *)
Definition default_to (d v : jsval) : jsval :=
  match v with JUndefined => d | _ => v end.

Definition is_nan (x : number) : bool := negb (PrimFloat.eqb x x).

Definition ToBoolean (v : jsval) : bool :=
  match v with
  | JUndefined | JNull => false
  | JBool b => b
  | JNum x => negb (PrimFloat.eqb x PrimFloat.zero || is_nan x)
  | JStr s => negb (String.eqb s "")
  | JArr _ | JObj _ => true
  end.

(** [a || b] *)
Definition or_else (a b : jsval) : jsval := if ToBoolean a then a else b.

(** [v === "..."] *)
Definition strict_eq_string (v : jsval) (s : string) : bool :=
  match v with JStr t => String.eqb t s | _ => false end.

(** The own properties of [Object.prototype] in V8, each with the text its
    value has in a template literal.  Every value is an object, hence truthy. *)
Definition Object_prototype : list (string * string) :=
  [ ("constructor", "function Object() { [native code] }");
    ("__defineGetter__", "function __defineGetter__() { [native code] }");
    ("__defineSetter__", "function __defineSetter__() { [native code] }");
    ("hasOwnProperty", "function hasOwnProperty() { [native code] }");
    ("__lookupGetter__", "function __lookupGetter__() { [native code] }");
    ("__lookupSetter__", "function __lookupSetter__() { [native code] }");
    ("isPrototypeOf", "function isPrototypeOf() { [native code] }");
    ("propertyIsEnumerable", "function propertyIsEnumerable() { [native code] }");
    ("toString", "function toString() { [native code] }");
    ("valueOf", "function valueOf() { [native code] }");
    ("__proto__", "[object Object]");
    ("toLocaleString", "function toLocaleString() { [native code] }") ].

Fixpoint assoc (l : list (string * string)) (k : string) : option string :=
  match l with
  | [] => None
  | (k', v) :: rest => if String.eqb k' k then Some v else assoc rest k
  end.

(** [literal[key]] for an object literal whose values are non-empty strings,
    as the text the result has in a template literal: [None] is [undefined]. *)
Definition literal_get (literal : list (string * string)) (key : string) : option string :=
  match assoc literal key with
  | Some v => Some v
  | None => assoc Object_prototype key
  end.

Section Coercions.

(** The two ECMAScript operations between Numbers and their decimal text,
    [Number::toString] and [StringToNumber], are taken as they are. *)
Variable Number_toString : number -> string.
Variable StringToNumber : string -> number.

(** [ToString], as a template literal and a property key apply it.  An array
    is joined with commas, null elements as empty text.  An object converts
    through [toString] and [valueOf]: an own property of JSON origin is not
    callable, so an object with an own [toString] throws a [TypeError], and
    any other is [Object.prototype.toString]'s text. *)
Fixpoint ToString (v : jsval) : option string :=
  match v with
  | JUndefined => Some "undefined"
  | JNull => Some "null"
  | JBool true => Some "true"
  | JBool false => Some "false"
  | JNum x => Some (Number_toString x)
  | JStr s => Some s
  | JArr items =>
      (fix join_items (l : list jsval) : option string :=
         match l with
         | [] => Some ""
         | x :: rest =>
             let elem := match x with
                         | JUndefined | JNull => Some ""
                         | _ => ToString x
                         end in
             match elem, rest with
             | None, _ => None
             | Some s, [] => Some s
             | Some s, _ :: _ =>
                 match join_items rest with
                 | Some t => Some (s ++ "," ++ t)
                 | None => None
                 end
             end
         end) items
  | JObj props => if has_own props "toString" then None else Some "[object Object]"
  end.

(** [ToNumber]; an array or object converts to its text first. *)
Definition ToNumber (v : jsval) : option number :=
  match v with
  | JUndefined => Some PrimFloat.nan
  | JNull => Some PrimFloat.zero
  | JBool true => Some PrimFloat.one
  | JBool false => Some PrimFloat.zero
  | JNum x => Some x
  | JStr s => Some (StringToNumber s)
  | JArr _ | JObj _ => option_map StringToNumber (ToString v)
  end.

(** [v < n] and [v >= n] against a Number literal. *)
Definition js_lt (v : jsval) (n : number) : option bool :=
  option_map (fun x => lt x n) (ToNumber v).

Definition js_ge (v : jsval) (n : number) : option bool :=
  option_map (fun x => ge x n) (ToNumber v).

End Coercions.

(** ** The completion API, conversation turns and HTTP responses *)

Inductive Role := system | user | assistant.

Record turn := { role : Role; content : jsval }.

(** The argument of [openai.chat.completions.create]. *)
Record chat_request := {
  model : string;
  messages : list turn;
  temperature : option number;
  stream : bool
}.

(** A completion: [choices[i].message.content], where a message may be
    missing and its content null. *)
Record chat_message := { message_content : option string }.
Record choice := { message : option chat_message }.
Record chat_completion := { choices : list choice }.

(** What the awaited call does: it throws, or it yields a completion. *)
Inductive upstream := Rejects | Resolves (completion : chat_completion).

(** [completion.choices[0]?.message?.content] *)
Definition first_content (c : chat_completion) : option string :=
  match choices c with
  | [] => None
  | ch :: _ =>
      match message ch with
      | None => None
      | Some m => message_content m
      end
  end.

(** [completion.choices[0]?.message?.content || fallback] *)
Definition content_or (fallback : string) (c : chat_completion) : string :=
  match first_content c with
  | Some s => if String.eqb s "" then fallback else s
  | None => fallback
  end.

(** [completion.choices[0]?.message?.content?.trim() || fallback] *)
Definition trimmed_content_or (fallback : string) (c : chat_completion) : string :=
  match first_content c with
  | Some s => let t := trim s in if String.eqb t "" then fallback else t
  | None => fallback
  end.

Inductive payload := Json (o : jsobj) | Text (s : string).

Record response := { status : nat; body : payload }.

(** What a handler did: the response it sent ([None] when it threw outside
    any [try], so that none was sent) and its calls of the completion API,
    oldest first. *)
Record outcome := { sent : option response; upstream_calls : list chat_request }.

Definition respond (code : nat) (p : payload) (calls : list chat_request) : outcome :=
  {| sent := Some {| status := code; body := p |}; upstream_calls := calls |}.

Definition error (text : string) : payload := Json [("error", JStr text)].

(** The Number literals of the source that are not binary64 values, as the
    doubles they denote. *)
Definition temperature_0_7 : number := 0x1.6666666666666p-1%float.
Definition temperature_0_65 : number := 0x1.4cccccccccccdp-1%float.

(** [a.slice(-n)] *)
Definition slice_last {A : Type} (n : nat) (a : list A) : list A :=
  skipn (List.length a - n) a.

(** ** The system prompt of the /ask handlers *)

Definition coach_intro : string :=
  "You are the AI Vault Coach — a supportive, practical financial guide who helps users build good saving habits, pay off debt, and stay motivated.".

Definition coach_rules : list string :=
  [ "Your tone is encouraging, empathetic, and goal-oriented — like a mix of a financial therapist and accountability partner.";
    "";
    "Speak in clear, human, friendly language (not robotic or overly formal). Avoid jargon. Use short sentences. Always explain "
      ++ dq ++ "why" ++ dq ++ " when giving advice.";
    "";
    "When a user asks something vague or emotional (e.g. " ++ dq ++ "I’m stuck" ++ dq ++ " or "
      ++ dq ++ "I feel lost" ++ dq ++ "), respond with reassurance first, then offer a small step forward.";
    "";
    "Always assume they are using the DebtVault app, where users can:";
    "- Create vaults (like for rent, credit cards, emergency)";
    "- Save daily micro-amounts toward those vaults";
    "- Track progress and streaks";
    "- Celebrate wins";
    "";
    "Be brief but helpful. If you're unsure how to respond, suggest asking the Vault Coach again in a more specific way." ].

(** The template of part_000, part_003 and part_004, trimmed. *)
Definition coach_prompt : string :=
  trim (nl ++ join nl (coach_intro :: "" :: coach_rules) ++ nl).

(** The template of part_001 and part_002, which names the vault type. *)
Definition coach_prompt_for (vaultType : string) : string :=
  trim (nl ++ join nl (coach_intro :: ""
                       :: ("The user is currently asking about their " ++ dq ++ vaultType ++ dq ++ " vault.")
                       :: "" :: coach_rules) ++ nl).

Definition strict_prompt : string :=
  trim (nl ++ "You are a strict financial advisor who gives tough love. Be direct, firm, and focused on results. No fluff. Make the user take action. If they’re wasting money, call it out. Don’t be mean — just brutally honest. Always tie advice to their goals in the DebtVault app." ++ nl).

Definition friendly_prompt : string :=
  trim (nl ++ "You are a warm, supportive financial coach who sounds like a kind friend. Be very encouraging, uplifting, and use relatable examples. Never judge. Always start with reassurance. End with a small suggestion or gentle push. Assume the user is using DebtVault to save daily for things like rent, credit cards, or emergencies." ++ nl).

(** ** src/index.js *)

Module index_js.

(** [POST /ask] *)
Definition ask (body : jsobj) (up : upstream) : outcome :=
  let userMessage := or_else (get body "question") (get body "message") in
  if negb (ToBoolean userMessage) then
    respond 400 (error "Missing message input.") []
  else
    let call := {| model := "gpt-4";
                   messages := [ {| role := system; content := JStr "You are the AI Vault Coach." |};
                                 {| role := user; content := userMessage |} ];
                   temperature := None;
                   stream := false |} in
    match up with
    | Resolves chat =>
        let reply := content_or "No reply generated." chat in
        respond 200 (Json [("reply", JStr reply)]) [call]
    | Rejects => respond 500 (error "OpenAI failed to respond.") [call]
    end.

End index_js.

(** ** src/unnamed/part_003, first server *)

Module part_003_a.

(** [POST /ask]: the message is read and sent as it is. *)
Definition ask (body : jsobj) (up : upstream) : outcome :=
  let userMessage := get body "message" in
  let call := {| model := "gpt-4";
                 messages := [ {| role := system; content := JStr "You are the AI Vault Coach." |};
                               {| role := user; content := userMessage |} ];
                 temperature := None;
                 stream := false |} in
  match up with
  | Resolves chat =>
      let reply := content_or "No reply generated." chat in
      respond 200 (Json [("reply", JStr reply)]) [call]
  | Rejects => respond 500 (error "OpenAI failed to respond.") [call]
  end.

End part_003_a.

(** ** src/unnamed/part_004 *)

Module part_004.

(** [POST /ask] with the process-wide [conversationHistory]: the handler
    returns the history it leaves behind. *)
Definition ask (body : jsobj) (up : upstream) (conversationHistory : list turn)
  : outcome * list turn :=
  let userMessage := or_else (get body "question") (get body "message") in
  if negb (ToBoolean userMessage) then
    (respond 400 (error "Missing message input.") [], conversationHistory)
  else
    let pushed := (conversationHistory ++ [ {| role := user; content := userMessage |} ])%list in
    let conversationHistory := if (3 <? List.length pushed)%nat then slice_last 3 pushed else pushed in
    let call := {| model := "gpt-4o";
                   messages := {| role := system; content := JStr coach_prompt |}
                               :: conversationHistory;
                   temperature := None;
                   stream := false |} in
    match up with
    | Resolves chat =>
        let reply := trimmed_content_or "No reply generated." chat in
        let pushed := (conversationHistory ++ [ {| role := assistant; content := JStr reply |} ])%list in
        let conversationHistory := if (6 <? List.length pushed)%nat then slice_last 6 pushed else pushed in
        (respond 200 (Json [("reply", JStr reply)]) [call], conversationHistory)
    | Rejects =>
        (respond 500 (error "OpenAI failed to respond.") [call], conversationHistory)
    end.

(** The handler runs without interruption up to [await
    openai.chat.completions.create(...)] and again from there on; between
    the two, other requests may run on the same [conversationHistory].

    Up to the [await]: the 400, or the user turn pushed and the call made,
    whose [messages] hold a copy of the history ([...conversationHistory]). *)
Definition ask_until_await (body : jsobj) (conversationHistory : list turn)
  : (outcome + chat_request) * list turn :=
  let userMessage := or_else (get body "question") (get body "message") in
  if negb (ToBoolean userMessage) then
    (inl (respond 400 (error "Missing message input.") []), conversationHistory)
  else
    let pushed := (conversationHistory ++ [ {| role := user; content := userMessage |} ])%list in
    let conversationHistory := if (3 <? List.length pushed)%nat then slice_last 3 pushed else pushed in
    let call := {| model := "gpt-4o";
                   messages := {| role := system; content := JStr coach_prompt |}
                               :: conversationHistory;
                   temperature := None;
                   stream := false |} in
    (inr call, conversationHistory).

(** From the [await] on, with the history as it is by then. *)
Definition ask_after_await (call : chat_request) (up : upstream)
    (conversationHistory : list turn) : outcome * list turn :=
  match up with
  | Resolves chat =>
      let reply := trimmed_content_or "No reply generated." chat in
      let pushed := (conversationHistory ++ [ {| role := assistant; content := JStr reply |} ])%list in
      let conversationHistory := if (6 <? List.length pushed)%nat then slice_last 6 pushed else pushed in
      (respond 200 (Json [("reply", JStr reply)]) [call], conversationHistory)
  | Rejects =>
      (respond 500 (error "OpenAI failed to respond.") [call], conversationHistory)
  end.

End part_004.

(** ** src/unnamed/part_003, second server *)

Module part_003_b.

(** [POST /ask]: as part_004, with the system prompt chosen by [mode]. *)
Definition ask (body : jsobj) (up : upstream) (conversationHistory : list turn)
  : outcome * list turn :=
  let userMessage := or_else (get body "question") (get body "message") in
  let mode := or_else (get body "mode") (JStr "Normal") in
  if negb (ToBoolean userMessage) then
    (respond 400 (error "Missing message input.") [], conversationHistory)
  else
    let systemPrompt :=
      if strict_eq_string mode "Strict" then strict_prompt
      else if strict_eq_string mode "Friendly" then friendly_prompt
      else coach_prompt in
    let pushed := (conversationHistory ++ [ {| role := user; content := userMessage |} ])%list in
    let conversationHistory := if (3 <? List.length pushed)%nat then slice_last 3 pushed else pushed in
    let call := {| model := "gpt-4o";
                   messages := {| role := system; content := JStr systemPrompt |}
                               :: conversationHistory;
                   temperature := Some temperature_0_7;
                   stream := false |} in
    match up with
    | Resolves completion =>
        let reply := trimmed_content_or "No reply generated." completion in
        let pushed := (conversationHistory ++ [ {| role := assistant; content := JStr reply |} ])%list in
        let conversationHistory := if (6 <? List.length pushed)%nat then slice_last 6 pushed else pushed in
        (respond 200 (Json [("reply", JStr reply)]) [call], conversationHistory)
    | Rejects =>
        (respond 500 (error "OpenAI failed to respond.") [call], conversationHistory)
    end.

End part_003_b.

(** ** Exceptions *)

(** A computation that may throw: [None] is the thrown exception. *)
Definition bind {A B : Type} (m : option A) (k : A -> option B) : option B :=
  match m with
  | Some a => k a
  | None => None
  end.

Notation "x <- m ;; k" := (bind m (fun x => k))
  (at level 61, m at next level, right associativity).

(** ** The row store *)

(** [supabase.from("vaults").select(columns).eq("user_id", u).eq("archived", a)] *)
Record vaults_query := {
  columns : string;
  user_id_eq : jsval;
  archived_eq : bool
}.

(** What the awaited query does: it throws, or it yields [{ data, error }],
    where [data] may be null. *)
Inductive store_reply :=
| StoreRejects
| StoreReplies (data : option (list jsobj)) (error : jsval).

Definition store := vaults_query -> store_reply.

(** A row of the vaults table: its owner, its archived flag and the columns
    the handlers read. *)
Record vault_row := { owner : string; archived : bool; fields : jsobj }.

(** A store that holds [rows] and answers every query, with the rows that
    pass both filters in table order.  [same_user] is how the store compares
    the owner column with the filter's value. *)
Definition table_store (same_user : string -> jsval -> bool) (rows : list vault_row) : store :=
  fun q =>
    StoreReplies
      (Some (map fields
               (filter (fun r => same_user (owner r) (user_id_eq q)
                                 && Bool.eqb (archived r) (archived_eq q)) rows)))
      JNull.

(** [vaults.find(p)], where [p] may throw: the first row on which [p] is
    true, if any. *)
Fixpoint find_row (p : jsobj -> option bool) (vaults : list jsobj) : option (option jsobj) :=
  match vaults with
  | [] => Some None
  | v :: rest =>
      b <- p v ;;
      if b then Some (Some v) else find_row p rest
  end.

(** ** The streaming completion API *)

(** The awaited streaming call throws; or it yields the chunks of the stream
    to its end, each with its [choices?.[0]?.delta?.content]; or the stream
    opens, yields some chunks and then throws in the middle of the
    iteration. *)
Inductive upstream_stream :=
| StreamRejects
| StreamYields (deltas : list (option string))
| StreamBreaks (deltas : list (option string)).

(** The fragments the loop writes: [content || ""] for each chunk. *)
Definition written (deltas : list (option string)) : list string :=
  map (fun d => match d with Some s => s | None => "" end) deltas.

(** ** src/unnamed/part_000 *)

Module part_000.
Section Handlers.

Variable Number_toString : number -> string.

(** [...(memory ? [{ role: "system", content: `Here is recent user context:\n${memory}` }] : [])] *)
Definition memory_note (memory : jsval) : option (list turn) :=
  if ToBoolean memory then
    m <- ToString Number_toString memory ;;
    Some [ {| role := system; content := JStr ("Here is recent user context:" ++ nl ++ m) |} ]
  else Some [].

(** The [messages] array of /ask and /ask-stream. *)
Definition compose (systemPrompt memory question : jsval) : option (list turn) :=
  note <- memory_note memory ;;
  Some ({| role := system; content := systemPrompt |}
        :: note ++ [ {| role := user; content := question |} ])%list.

(** [POST /ask].  The messages are built before the [try]: an exception
    there leaves the request without a response. *)
Definition ask (body : jsobj) (up : upstream) : outcome :=
  let question := get body "question" in
  let memory := default_to (JStr "") (get body "memory") in
  let customPrompt := get body "systemPrompt" in
  if negb (ToBoolean question) then
    respond 400 (error "Missing question.") []
  else
    let systemPrompt := or_else customPrompt (JStr coach_prompt) in
    match compose systemPrompt memory question with
    | None => {| sent := None; upstream_calls := [] |}
    | Some messages =>
        let call := {| model := "gpt-4o"; messages := messages;
                       temperature := Some temperature_0_7; stream := false |} in
        match up with
        | Resolves completion =>
            let reply := trimmed_content_or "No reply generated." completion in
            respond 200 (Json [("reply", JStr reply)]) [call]
        | Rejects => respond 500 (error "OpenAI failed to respond.") [call]
        end
    end.

(** What /ask-stream sent: an error status with its text; the fragments of a
    chunked text/plain response in the order written, followed by its end;
    or such fragments without an end.  The first [res.write] sends the
    headers, so when the loop throws after a write, the
    [res.status(500).send(...)] of the [catch] block throws in its turn
    (the headers cannot be set any more): the handler writes nothing more
    and never ends the response. *)
Inductive streamed :=
| Failed (code : nat) (text : string)
| Chunked (fragments : list string)
| Truncated (fragments : list string).

(** [POST /ask-stream] *)
Definition ask_stream (body : jsobj) (up : upstream_stream)
  : option streamed * list chat_request :=
  let question := get body "question" in
  let systemPrompt := default_to (JStr "") (get body "systemPrompt") in
  let memory := default_to (JStr "") (get body "memory") in
  if negb (ToBoolean question) then
    (Some (Failed 400 "Missing question."), [])
  else
    match compose systemPrompt memory question with
    | None => (None, [])
    | Some messages =>
        let call := {| model := "gpt-4o"; messages := messages;
                       temperature := Some temperature_0_7; stream := true |} in
        match up with
        | StreamYields deltas => (Some (Chunked (written deltas)), [call])
        | StreamBreaks [] | StreamRejects =>
            (Some (Failed 500 "Error streaming response."), [call])
        | StreamBreaks deltas => (Some (Truncated (written deltas)), [call])
        end
    end.

End Handlers.
End part_000.

(** ** src/unnamed/part_001 *)

Module part_001.
Section Handlers.

Variable Number_toString : number -> string.
Variable StringToNumber : string -> number.

(** [customPrompt || `...${vaultType}...`.trim()]: the template is evaluated
    only when no prompt is passed. *)
Definition system_prompt (customPrompt vaultType : jsval) : option jsval :=
  if ToBoolean customPrompt then Some customPrompt
  else
    t <- ToString Number_toString vaultType ;;
    Some (JStr (coach_prompt_for t)).

(** [POST /ask] *)
Definition ask (body : jsobj) (up : upstream) : outcome :=
  let question := get body "question" in
  let memory := default_to (JStr "") (get body "memory") in
  let customPrompt := get body "systemPrompt" in
  let vaultType := default_to (JStr "General") (get body "vaultType") in
  if negb (ToBoolean question) then
    respond 400 (error "Missing question.") []
  else
    match (systemPrompt <- system_prompt customPrompt vaultType ;;
           part_000.compose Number_toString systemPrompt memory question) with
    | None => {| sent := None; upstream_calls := [] |}
    | Some messages =>
        let call := {| model := "gpt-4o"; messages := messages;
                       temperature := Some temperature_0_7; stream := false |} in
        match up with
        | Resolves completion =>
            let reply := trimmed_content_or "No reply generated." completion in
            respond 200 (Json [("reply", JStr reply)]) [call]
        | Rejects => respond 500 (error "OpenAI failed to respond.") [call]
        end
    end.

(** [POST /ask-stream]: the text of part_000's handler. *)
Definition ask_stream := part_000.ask_stream Number_toString.

Definition emojiMap : list (string * string) :=
  [ ("Rent", "🏠"); ("Credit Card", "💳"); ("Emergency", "🚨"); ("Bills", "🧾");
    ("Car", "🚗"); ("Custom", "🎯"); ("General", "💰") ].

(** Step 2 of /get-nudge:
    [find(streak >= 5) || find(vault_type === "Credit Card") || vaults[0]].
    Destructuring [vaults[0]] of an empty array would throw. *)
Definition pick_vault (vaults : list jsobj) : option jsobj :=
  by_streak <- find_row (fun v => js_ge Number_toString StringToNumber (get v "streak") 5%float) vaults ;;
  match by_streak with
  | Some v => Some v
  | None =>
      by_type <- find_row (fun v => Some (strict_eq_string (get v "vault_type") "Credit Card")) vaults ;;
      match by_type with
      | Some v => Some v
      | None => hd_error vaults
      end
  end.

(** [Math.round((current_balance / target_amount) * 100)] *)
Definition progress_of (current_balance target_amount : jsval) : option number :=
  b <- ToNumber Number_toString StringToNumber current_balance ;;
  t <- ToNumber Number_toString StringToNumber target_amount ;;
  Some (Math_round (b / t * 100)%float).

(** Step 3: [emojiMap[vault_type] || "📦"]. *)
Definition emoji_of (vault_type : jsval) : option string :=
  key <- ToString Number_toString vault_type ;;
  Some (match literal_get emojiMap key with Some e => e | None => "📦" end).

(** Step 4, the nudge for the destructured vault. *)
Definition nudge_text (emoji : string) (vault_type streak : jsval) (progress : number)
  : option string :=
  if lt progress 15%float then
    vt <- ToString Number_toString vault_type ;;
    Some ("Let’s kickstart your " ++ emoji ++ " " ++ vt
          ++ " vault — even $1 today builds momentum.")
  else
    streak_ge_5 <- js_ge Number_toString StringToNumber streak 5%float ;;
    if streak_ge_5 then
      s <- ToString Number_toString streak ;;
      vt <- ToString Number_toString vault_type ;;
      Some ("🔥 You're on a " ++ s ++ "-day streak in your " ++ emoji ++ " " ++ vt
            ++ " vault. Keep it alive!")
    else if ge progress 90%float then
      vt <- ToString Number_toString vault_type ;;
      Some ("🎯 You're " ++ Number_toString (100 - progress)%float
            ++ "% away from finishing your " ++ emoji ++ " " ++ vt
            ++ " vault. Almost there!")
    else if strict_eq_string vault_type "Credit Card" && ge progress 50%float then
      Some ("👏 Halfway to crushing your " ++ emoji
            ++ " Credit Card vault. Every day makes a difference.")
    else
      vt <- ToString Number_toString vault_type ;;
      Some ("Your " ++ emoji ++ " " ++ vt
            ++ " vault is growing. Add a little today to boost your streak. 🌱").

Definition no_vaults : string :=
  "You don’t have any vaults yet. Create one and start saving today 💰.".

(** Steps 2 to 4 on the rows the store returned. *)
Definition nudge_for (vaults : list jsobj) : option string :=
  vault <- pick_vault vaults ;;
  let vault_type := default_to (JStr "Vault") (get vault "vault_type") in
  let streak := default_to (JNum 0%float) (get vault "streak") in
  let current_balance := default_to (JNum 0%float) (get vault "current_balance") in
  let target_amount := default_to (JNum 1%float) (get vault "target_amount") in
  progress <- progress_of current_balance target_amount ;;
  emoji <- emoji_of vault_type ;;
  nudge_text emoji vault_type streak progress.

(** [POST /get-nudge] *)
Definition get_nudge (body : jsobj) (supabase : store) : response :=
  let user_id := get body "user_id" in
  if negb (ToBoolean user_id) then
    {| status := 400; body := error "Missing user_id." |}
  else
    match supabase {| columns := "*"; user_id_eq := user_id; archived_eq := false |} with
    | StoreRejects =>
        {| status := 500; body := error "Something went wrong generating the nudge." |}
    | StoreReplies vaults err =>
        if ToBoolean err then
          {| status := 500; body := error "Failed to fetch vaults." |}
        else
          match vaults with
          | None | Some [] => {| status := 200; body := Json [("nudge", JStr no_vaults)] |}
          | Some vaults =>
              match nudge_for vaults with
              | Some nudge => {| status := 200; body := Json [("nudge", JStr nudge)] |}
              | None =>
                  {| status := 500; body := error "Something went wrong generating the nudge." |}
              end
          end
    end.

End Handlers.
End part_001.

(** ** src/unnamed/part_002, first server (the versioned API /v1/coach) *)

Module part_002_a.

(** [detectAdaptiveMode(question, requestedMode)] for a question that is a
    string. *)
Definition detectAdaptiveMode (question : string) (requestedMode : jsval) : jsval :=
  let lower := toLowerCase question in
  if includes lower "stressed" || includes lower "overwhelmed" || includes lower "anxious"
  then JStr "Soothing & Calm"
  else if includes lower "hype" || includes lower "motivation" || includes lower "boost"
  then JStr "Energetic & Motivating"
  else if includes lower "discipline" || includes lower "hold me accountable"
  then JStr "Professional & Direct"
  else if includes lower "strategy" || includes lower "optimize" || includes lower "plan"
  then JStr "Expert Financial Advisor"
  else or_else requestedMode (JStr "Warm & Friendly").

Definition personalities : list (string * string) :=
  [ ("Warm & Friendly", "You are warm, supportive, and conversational.");
    ("Energetic & Motivating", "You are high-energy and motivating.");
    ("Professional & Direct", "You are structured and direct.");
    ("Soothing & Calm", "You are gentle, grounding, and calming.");
    ("Expert Financial Advisor", "You are analytical, strategic, and expert-level.") ].

Definition emojiMap : list (string * string) :=
  [ ("Credit Card", "💳"); ("Emergency", "🚨"); ("Bills", "📄");
    ("Car", "🚗"); ("Custom", "🧩"); ("General", "🏦") ].

Section Handlers.

Variable Number_toString : number -> string.
Variable StringToNumber : string -> number.

(** One line of the vault status:
    [`${v.vault_type}: ${pct}% saved, streak ${v.streak} days`]. *)
Definition vault_line (v : jsobj) : option string :=
  b <- ToNumber Number_toString StringToNumber (get v "current_balance") ;;
  t <- ToNumber Number_toString StringToNumber (get v "target_amount") ;;
  let pct := Math_round (b / t * 100)%float in
  vt <- ToString Number_toString (get v "vault_type") ;;
  s <- ToString Number_toString (get v "streak") ;;
  Some (vt ++ ": " ++ Number_toString pct ++ "% saved, streak " ++ s ++ " days").

(** [vaults.map(vault_line)] *)
Fixpoint vault_lines (vaults : list jsobj) : option (list string) :=
  match vaults with
  | [] => Some []
  | v :: rest =>
      l <- vault_line v ;;
      ls <- vault_lines rest ;;
      Some (l :: ls)
  end.

(** [getVaultContext(user_id)]; the [error] of the store's answer is not read. *)
Definition getVaultContext (supabase : store) (user_id : jsval) : option string :=
  if negb (ToBoolean user_id) then Some "User not logged in."
  else
    match supabase {| columns := "vault_type, current_balance, target_amount, streak";
                      user_id_eq := user_id; archived_eq := false |} with
    | StoreRejects => None
    | StoreReplies None _ | StoreReplies (Some []) _ => Some "User currently has no vaults."
    | StoreReplies (Some vaults) _ =>
        ls <- vault_lines vaults ;;
        Some (join nl ls)
    end.

(** [buildSystemPrompt(finalMode, vaultContext)] *)
Definition buildSystemPrompt (finalMode : jsval) (vaultContext : string) : option string :=
  mode <- ToString Number_toString finalMode ;;
  let personality := match literal_get personalities mode with
                     | Some text => text
                     | None => "undefined"
                     end in
  Some (nl ++ "You are the AI Vault Coach for the DebtVault app." ++ nl
        ++ nl ++ "User Vault Status:" ++ nl
        ++ vaultContext ++ nl
        ++ nl ++ "Tone Mode: " ++ mode ++ nl
        ++ nl ++ "Personality Rules:" ++ nl
        ++ personality ++ nl
        ++ nl ++ "Rules:" ++ nl
        ++ "• Always give ONE actionable step." ++ nl
        ++ "• Always be encouraging." ++ nl
        ++ "• Keep responses short unless detail is required." ++ nl).

Definition rephrase : string := "I'm not sure — try rephrasing your question.".

(** The statements of /v1/coach/ask between the check of the question and
    the call: the call's messages and [finalMode].  A question that is not a
    string has no [toLowerCase] to call. *)
Definition prepare (supabase : store) (question user_id requestedMode : jsval)
  : option (list turn * jsval) :=
  vaultContext <- getVaultContext supabase user_id ;;
  finalMode <- match question with
               | JStr q => Some (detectAdaptiveMode q requestedMode)
               | _ => None
               end ;;
  systemPrompt <- buildSystemPrompt finalMode vaultContext ;;
  Some ([ {| role := system; content := JStr systemPrompt |};
          {| role := user; content := question |} ], finalMode).

(** [POST /v1/coach/ask]; the whole handler is inside [try]. *)
Definition coach_ask (body : jsobj) (supabase : store) (up : upstream) : outcome :=
  let question := get body "question" in
  let user_id := get body "user_id" in
  let requestedMode := default_to (JStr "Warm & Friendly") (get body "coachMode") in
  if negb (ToBoolean question) then
    respond 400 (error "Missing question.") []
  else
    match prepare supabase question user_id requestedMode with
    | None => respond 500 (error "AI failed to respond.") []
    | Some (messages, finalMode) =>
        let call := {| model := "gpt-4o"; messages := messages;
                       temperature := Some temperature_0_65; stream := false |} in
        match up with
        | Resolves completion =>
            let reply := content_or rephrase completion in
            respond 200 (Json [("reply", JStr reply); ("finalMode", finalMode)]) [call]
        | Rejects => respond 500 (error "AI failed to respond.") [call]
        end
    end.

(** The statements of /v1/coach/nudge inside [try]. *)
Definition nudge_text (streak vault_type progress : jsval) : option string :=
  key <- ToString Number_toString vault_type ;;
  let emoji := match literal_get emojiMap key with Some e => e | None => "🏦" end in
  vt <- ToString Number_toString vault_type ;;
  let nudge := "Your " ++ emoji ++ " " ++ vt ++ " vault is growing. Add a little today 🌱" in
  progress_lt_15 <- js_lt Number_toString StringToNumber progress 15%float ;;
  if progress_lt_15 then
    Some ("Kickstart your " ++ emoji ++ " " ++ vt ++ " vault — even $1 builds momentum.")
  else
    streak_ge_5 <- js_ge Number_toString StringToNumber streak 5%float ;;
    if streak_ge_5 then
      s <- ToString Number_toString streak ;;
      Some ("🔥 You're on a " ++ s ++ "-day streak in your " ++ emoji ++ " " ++ vt ++ " vault!")
    else
      progress_ge_90 <- js_ge Number_toString StringToNumber progress 90%float ;;
      if progress_ge_90 then
        p <- ToNumber Number_toString StringToNumber progress ;;
        Some ("🎉 You're " ++ Number_toString (100 - p)%float ++ "% from completing your "
              ++ emoji ++ " " ++ vt ++ " vault!")
      else if strict_eq_string vault_type "Credit Card" then
        progress_ge_50 <- js_ge Number_toString StringToNumber progress 50%float ;;
        if progress_ge_50 then
          Some ("🏁 You're halfway to defeating your " ++ emoji ++ " Credit Card vault!")
        else Some nudge
      else Some nudge.

(** [POST /v1/coach/nudge] *)
Definition coach_nudge (body : jsobj) : response :=
  let streak := get body "streak" in
  let vault_type := get body "vault_type" in
  let progress := get body "progress" in
  match nudge_text streak vault_type progress with
  | Some nudge => {| status := 200; body := Json [("nudge", JStr nudge)] |}
  | None => {| status := 500; body := error "Nudge failed." |}
  end.

End Handlers.
End part_002_a.

(** ** src/unnamed/part_002, second server *)

Module part_002_b.

(** [POST /ask] and [POST /ask-stream]: the text of part_001's handlers. *)
Definition ask := part_001.ask.
Definition ask_stream := part_001.ask_stream.

Definition dailyNudges : list string :=
  [ "You’re only one small deposit away from keeping your streak alive.";
    "Small steps add up — drop $1 into your Rent vault today.";
    "Missing a day is okay, but don’t make it two.";
    "Momentum beats motivation. Just act once!";
    "Consistency > big deposits. Tap that Add button 💪" ].

(** [a[i]] for a Number [i]: the element whose index is [i], else
    [undefined]. *)
Fixpoint element_at (a : list string) (k : Z) (i : number) : jsval :=
  match a with
  | [] => JUndefined
  | x :: rest =>
      if PrimFloat.eqb (number_of_Z k) i then JStr x else element_at rest (k + 1)%Z i
  end.

(** [POST /get-nudge].  [random] is the value [Math.random()] returns in this
    run, a double in [0, 1). *)
Definition get_nudge (body : jsobj) (random : number) : response :=
  let user_id := get body "user_id" in
  if negb (ToBoolean user_id) then
    {| status := 400; body := error "Missing user_id" |}
  else
    let random := Math_floor (random * number_of_Z (Z.of_nat (List.length dailyNudges)))%float in
    let message := element_at dailyNudges 0 random in
    {| status := 200; body := Json [("message", message)] |}.

End part_002_b.

(** ** An executable instance of the two Number operations

    The theorems below hold for every [Number_toString] and
    [StringToNumber].  The examples run the handlers with this instance,
    which agrees with ECMAScript on the values the examples meet: for
    [Number::toString], NaN, the infinities, the zeros and the integers up to
    2^53 (of any other double it prints the integer part); for
    [StringToNumber], the empty string and the strings of decimal digits that
    denote such an integer (any other text is read as NaN). *)

Definition digit_of (c : ascii) : option Z :=
  let x := code c in
  if ((48 <=? x) && (x <=? 57))%N then Some (Z.of_N x - 48)%Z else None.

Fixpoint digits_value (acc : Z) (s : string) : option Z :=
  match s with
  | EmptyString => Some acc
  | String c r =>
      match digit_of c with
      | Some d => digits_value (10 * acc + d)%Z r
      | None => None
      end
  end.

Definition integer_text (n : Z) : string :=
  DecimalString.NilZero.string_of_int (Z.to_int n).

Definition Number_toString_integer (x : number) : string :=
  match Prim2SF x with
  | S754_nan => "NaN"
  | S754_infinity false => "Infinity"
  | S754_infinity true => "-Infinity"
  | S754_zero _ => "0"
  | S754_finite s m e =>
      let a := if (0 <=? e)%Z then (Z.pos m * 2 ^ e)%Z else (Z.pos m / 2 ^ (- e))%Z in
      integer_text (if s then (- a)%Z else a)
  end.

Definition StringToNumber_integer (s : string) : number :=
  match digits_value 0 s with
  | Some n => number_of_Z n
  | None => PrimFloat.nan
  end.

(** * Specification-side definitions *)

(** ** Mode resolution by a keyword table *)

(** A table of keyword sets in priority order, each with the mode it selects. *)
Definition keyword_table := list (list string * string).

Fixpoint first_match (lower : string) (table : keyword_table) : option string :=
  match table with
  | [] => None
  | (keywords, mode) :: rest =>
      if existsb (includes lower) keywords then Some mode else first_match lower rest
  end.

(** The first keyword set with a keyword in the lowercased question selects
    the mode; with no match the requested mode is used, else the default. *)
Definition resolve_mode (table : keyword_table) (question : string) (requestedMode : jsval)
  : jsval :=
  match first_match (toLowerCase question) table with
  | Some mode => JStr mode
  | None => or_else requestedMode (JStr "Warm & Friendly")
  end.

(** The keywords the handler tests. *)
Definition tested_keywords : keyword_table :=
  [ (["stressed"; "overwhelmed"; "anxious"], "Soothing & Calm");
    (["hype"; "motivation"; "boost"], "Energetic & Motivating");
    (["discipline"; "hold me accountable"], "Professional & Direct");
    (["strategy"; "optimize"; "plan"], "Expert Financial Advisor") ].

(** The keyword sets as the specification names them. *)
Definition named_keywords : keyword_table :=
  [ (["stress"; "overwhelm"; "anxiety"], "Soothing & Calm");
    (["hype"; "motivation"; "boost"], "Energetic & Motivating");
    (["discipline"; "accountability"], "Professional & Direct");
    (["strategy"; "optimize"; "plan"], "Expert Financial Advisor") ].

(** ** The threshold rule of the nudge *)

Inductive rule := Kickstart | StreakCelebration | NearCompletion | Halfway | GenericGrowth.

(** The ordered rule, first match wins. *)
Definition threshold_rule (progress streak : number) (credit_card : bool) : rule :=
  if lt progress 15%float then Kickstart
  else if ge streak 5%float then StreakCelebration
  else if ge progress 90%float then NearCompletion
  else if credit_card && ge progress 50%float then Halfway
  else GenericGrowth.

(** The message of each rule in the record-based mode (part_001) and in the
    explicit-field mode (part_002): [streak] and [remaining] are the texts of
    the streak and of [100 - progress]. *)
Definition record_message (r : rule) (emoji vault_type streak remaining : string) : string :=
  match r with
  | Kickstart =>
      "Let’s kickstart your " ++ emoji ++ " " ++ vault_type
      ++ " vault — even $1 today builds momentum."
  | StreakCelebration =>
      "🔥 You're on a " ++ streak ++ "-day streak in your " ++ emoji ++ " " ++ vault_type
      ++ " vault. Keep it alive!"
  | NearCompletion =>
      "🎯 You're " ++ remaining ++ "% away from finishing your " ++ emoji ++ " " ++ vault_type
      ++ " vault. Almost there!"
  | Halfway =>
      "👏 Halfway to crushing your " ++ emoji
      ++ " Credit Card vault. Every day makes a difference."
  | GenericGrowth =>
      "Your " ++ emoji ++ " " ++ vault_type
      ++ " vault is growing. Add a little today to boost your streak. 🌱"
  end.

Definition explicit_message (r : rule) (emoji vault_type streak remaining : string) : string :=
  match r with
  | Kickstart =>
      "Kickstart your " ++ emoji ++ " " ++ vault_type ++ " vault — even $1 builds momentum."
  | StreakCelebration =>
      "🔥 You're on a " ++ streak ++ "-day streak in your " ++ emoji ++ " " ++ vault_type
      ++ " vault!"
  | NearCompletion =>
      "🎉 You're " ++ remaining ++ "% from completing your " ++ emoji ++ " " ++ vault_type
      ++ " vault!"
  | Halfway => "🏁 You're halfway to defeating your " ++ emoji ++ " Credit Card vault!"
  | GenericGrowth =>
      "Your " ++ emoji ++ " " ++ vault_type ++ " vault is growing. Add a little today 🌱"
  end.

(** [emojiMap[key] || fallback] of the two modes. *)
Definition record_emoji (key : string) : string :=
  match literal_get part_001.emojiMap key with Some e => e | None => "📦" end.

Definition explicit_emoji (key : string) : string :=
  match literal_get part_002_a.emojiMap key with Some e => e | None => "🏦" end.

(** ** The choice of the vault *)

(** The first vault with a streak of at least 5, else the first Credit Card
    vault, else the first vault. *)
Definition select_vault (streak_ge_5 credit_card : jsobj -> bool) (vaults : list jsobj)
  : option jsobj :=
  match List.find streak_ge_5 vaults with
  | Some v => Some v
  | None =>
      match List.find credit_card vaults with
      | Some v => Some v
      | None => hd_error vaults
      end
  end.

(** [v.streak >= 5] as a boolean: false when the comparison throws. *)
Definition streak_at_least_5 (Number_toString : number -> string)
    (StringToNumber : string -> number) (v : jsobj) : bool :=
  match js_ge Number_toString StringToNumber (get v "streak") 5%float with
  | Some b => b
  | None => false
  end.

Definition is_credit_card (v : jsobj) : bool :=
  strict_eq_string (get v "vault_type") "Credit Card".

(** ** The reply of a completion *)

(** The first choice's text, trimmed where the handler trims, and the
    fallback when that is missing or empty. *)
Definition reply_text (trimmed : bool) (fallback : string) (content : option string) : string :=
  match content with
  | Some s =>
      let t := if trimmed then trim s else s in
      if String.eqb t "" then fallback else t
  | None => fallback
  end.

(** The [reply] of a JSON response. *)
Definition reply_of (o : outcome) : option jsval :=
  match sent o with
  | Some {| status := 200; body := Json fields |} => Some (get fields "reply")
  | _ => None
  end.

Definition status_of (o : outcome) : option nat := option_map status (sent o).

(** The system turns of a message list. *)
Definition system_turns (messages : list turn) : list jsval :=
  map content (filter (fun t => match role t with system => true | _ => false end) messages).

(** ** Runs of the nudge endpoints *)

(** What a handler asks of the world while it runs: a draw of
    [Math.random()], or the answer of the store to a query. *)
Inductive effect : Type -> Type :=
| Math_random : effect number
| select_vaults (q : vaults_query) : effect store_reply.

(** A handler as the sequence of what it asks and what it does with each
    answer. *)
Inductive program (A : Type) : Type :=
| Return (a : A)
| Perform {X : Type} (e : effect X) (k : X -> program A).

Arguments Return {A} a.
Arguments Perform {A X} e k.

(** The world of one run: the store, and the draws of [Math.random()] in
    the order they are made. *)
Record environment := { supabase_of : store; random_of : nat -> number }.

(** The run of a program in a world, [drawn] draws having been made. *)
Fixpoint run {A : Type} (e : environment) (drawn : nat) (p : program A) : A :=
  match p with
  | Return a => a
  | Perform eff k =>
      match eff in effect X return (X -> program A) -> A with
      | Math_random => fun k => run e (S drawn) (k (random_of e drawn))
      | select_vaults q => fun k => run e drawn (k (supabase_of e q))
      end k
  end.

Definition nudge_endpoint := jsobj -> program response.

(** [POST /get-nudge] of part_001: one query, after the check of user_id. *)
Definition record_nudge (Number_toString : number -> string)
    (StringToNumber : string -> number) : nudge_endpoint :=
  fun body =>
    let user_id := get body "user_id" in
    if negb (ToBoolean user_id) then
      Return {| status := 400; body := error "Missing user_id." |}
    else
      Perform (select_vaults {| columns := "*"; user_id_eq := user_id; archived_eq := false |})
        (fun reply =>
           Return
             match reply with
             | StoreRejects =>
                 {| status := 500; body := error "Something went wrong generating the nudge." |}
             | StoreReplies vaults err =>
                 if ToBoolean err then
                   {| status := 500; body := error "Failed to fetch vaults." |}
                 else
                   match vaults with
                   | None | Some [] =>
                       {| status := 200; body := Json [("nudge", JStr part_001.no_vaults)] |}
                   | Some vaults =>
                       match part_001.nudge_for Number_toString StringToNumber vaults with
                       | Some nudge => {| status := 200; body := Json [("nudge", JStr nudge)] |}
                       | None =>
                           {| status := 500;
                              body := error "Something went wrong generating the nudge." |}
                       end
                   end
             end).

(** [POST /v1/coach/nudge]: it asks nothing. *)
Definition explicit_nudge (Number_toString : number -> string)
    (StringToNumber : string -> number) : nudge_endpoint :=
  fun body => Return (part_002_a.coach_nudge Number_toString StringToNumber body).

(** [POST /get-nudge] of part_002: one draw, after the check of user_id. *)
Definition daily_nudge : nudge_endpoint :=
  fun body =>
    let user_id := get body "user_id" in
    if negb (ToBoolean user_id) then
      Return {| status := 400; body := error "Missing user_id" |}
    else
      Perform Math_random
        (fun draw =>
           let random :=
             Math_floor (draw * number_of_Z (Z.of_nat (List.length part_002_b.dailyNudges)))%float in
           let message := part_002_b.element_at part_002_b.dailyNudges 0 random in
           Return {| status := 200; body := Json [("message", message)] |}).

(** A program that never draws. *)
Inductive draws_nothing {A : Type} : program A -> Prop :=
| returns_draw_nothing (a : A) : draws_nothing (Return a)
| queries_draw_nothing (q : vaults_query) (k : store_reply -> program A) :
    (forall reply, draws_nothing (k reply)) -> draws_nothing (Perform (select_vaults q) k).

(** The response is a function of the request body and of the store's
    answers: two runs that differ in nothing else, whatever they draw,
    respond alike. *)
Definition deterministic (h : nudge_endpoint) : Prop :=
  forall e1 e2 body,
    (forall q, supabase_of e1 q = supabase_of e2 q) ->
    run e1 0 (h body) = run e2 0 (h body).

(** ** Runs of the rolling-history /ask *)

(** A server with a [conversationHistory]. *)
Definition history_server := jsobj -> upstream -> list turn -> outcome * list turn.

(** The requests of a run with what the completion API did on each, handled
    one at a time (each request is answered before the next arrives): the
    outcomes, oldest first, and the history left.  Requests that overlap are
    the matter of [handle] below. *)
Fixpoint serve (ask : history_server) (requests : list (jsobj * upstream))
    (conversationHistory : list turn) : list outcome * list turn :=
  match requests with
  | [] => ([], conversationHistory)
  | (body, up) :: rest =>
      let '(o, h) := ask body up conversationHistory in
      let '(os, h') := serve ask rest h in
      (o :: os, h')
  end.

(** ** Overlapping requests of the rolling-history /ask *)

(** The process of part_004 while requests overlap: its
    [conversationHistory], the calls that await their completion, oldest
    first, and the responses sent so far. *)
Record process := {
  history_of : list turn;
  awaiting : list chat_request;
  answered : list outcome
}.

(** What happens to the process: a request arrives, or the completion API
    settles the call at position [n] of those awaiting. *)
Inductive event := Arrives (body : jsobj) | Settles (n : nat) (up : upstream).

Fixpoint remove_nth {A : Type} (n : nat) (l : list A) : list A :=
  match n, l with
  | _, [] => []
  | O, _ :: rest => rest
  | S n, x :: rest => x :: remove_nth n rest
  end.

(** One event: the handler of the request runs to its [await], or resumes
    from it.  No call at position [n]: nothing settles. *)
Definition step (p : process) (ev : event) : process :=
  match ev with
  | Arrives body =>
      match part_004.ask_until_await body (history_of p) with
      | (inl o, h) =>
          {| history_of := h; awaiting := awaiting p; answered := (answered p ++ [o])%list |}
      | (inr call, h) =>
          {| history_of := h; awaiting := (awaiting p ++ [call])%list; answered := answered p |}
      end
  | Settles n up =>
      match nth_error (awaiting p) n with
      | None => p
      | Some call =>
          let '(o, h) := part_004.ask_after_await call up (history_of p) in
          {| history_of := h; awaiting := remove_nth n (awaiting p);
             answered := (answered p ++ [o])%list |}
      end
  end.

Definition handle (p : process) (events : list event) : process :=
  fold_left step events p.

(** The events of requests handled one at a time: each call settles before
    the next request arrives. *)
Definition one_at_a_time (requests : list (jsobj * upstream)) : list event :=
  flat_map (fun '(body, up) => [Arrives body; Settles 0 up]) requests.

Definition fresh_process : process := {| history_of := []; awaiting := []; answered := [] |}.

(** ** Inputs of the examples *)

Definition three_vaults : list jsobj :=
  [ [("vault_type", JStr "Credit Card"); ("streak", JNum 2%float);
     ("current_balance", JNum 50%float); ("target_amount", JNum 100%float)];
    [("vault_type", JStr "Rent"); ("streak", JNum 7%float);
     ("current_balance", JNum 29%float); ("target_amount", JNum 200%float)];
    [("vault_type", JStr "Car"); ("streak", JNum 9%float);
     ("current_balance", JNum 90%float); ("target_amount", JNum 100%float)] ].

Definition completion_with (text : string) : chat_completion :=
  {| choices := [ {| message := Some {| message_content := Some text |} |} ] |}.

Definition asks (question : string) (reply : string) : jsobj * upstream :=
  ([("question", JStr question)], Resolves (completion_with reply)).

Definition brief_with_memory : jsobj :=
  [ ("question", JStr "How do I start?");
    ("systemPrompt", JStr "Be brief.");
    ("memory", JStr "Saved $5 yesterday.") ].



(** The store [supabase] with the [error] of every answer replaced by null. *)
Definition without_error (supabase : store) : store :=
  fun q =>
    match supabase q with
    | StoreReplies data _ => StoreReplies data JNull
    | StoreRejects => StoreRejects
    end.

(** * Properties *)

(** ** Strings *)

Lemma prefix_toLowerCase (kw s : string) :
  String.prefix kw s = true -> String.prefix (toLowerCase kw) (toLowerCase s) = true.
Proof.
  revert s; induction kw as [|a kw IH]; intros [|b s]; simpl; trivial; try discriminate.
  destruct (ascii_dec a b) as [->|]; [|discriminate].
  intros H. destruct (ascii_dec (lower_ascii b) (lower_ascii b)); [auto|congruence].
Qed.

Lemma includes_toLowerCase (s kw : string) :
  includes s kw = true -> includes (toLowerCase s) (toLowerCase kw) = true.
Proof.
  induction s as [|c s IH]; simpl.
  - rewrite orb_false_r. intros H. apply (prefix_toLowerCase kw "") in H.
    simpl in H. now rewrite H.
  - intros H. apply orb_true_iff in H. destruct H as [H|H].
    + apply (prefix_toLowerCase kw (String c s)) in H. simpl in H. now rewrite H.
    + rewrite (IH H). apply orb_true_r.
Qed.

(** ** The models of the built-in functions on examples *)

Lemma Math_round_examples :
  Math_round 14.5%float = 15%float
  /\ Math_round 2.5%float = 3%float
  /\ Math_round (-1.5)%float = (-1)%float
  /\ Prim2SF (Math_round (-0.5)%float) = S754_zero true
  /\ Math_round 0.25%float = 0%float
  /\ Math_round (29 / 200 * 100)%float = 14%float
  /\ Math_round (90 / 100 * 100)%float = 90%float
  /\ Prim2SF (Math_round (0 / 0)%float) = S754_nan
  /\ Math_round (1 / 0)%float = PrimFloat.infinity
  /\ Math_floor 4.5%float = 4%float
  /\ Math_floor (-0.5)%float = (-1)%float.
Proof. repeat apply conj; reflexivity. Qed.

Lemma trim_examples :
  trim ("  Keep going!" ++ nl) = "Keep going!"
  /\ trim (nl ++ "a b" ++ nl ++ "      ") = "a b"
  /\ trim "   " = ""
  /\ trim "" = "".
Proof. repeat apply conj; reflexivity. Qed.

Lemma comparison_examples :
  lt 14%float 15%float = true /\ lt 15%float 15%float = false
  /\ ge 5%float 5%float = true /\ ge 4%float 5%float = false
  /\ lt PrimFloat.nan 15%float = false /\ ge PrimFloat.nan 5%float = false.
Proof. repeat apply conj; reflexivity. Qed.

(** A primitive value converts to text without an exception. *)
Lemma ToString_primitive (Number_toString : number -> string) (v : jsval) :
  match v with JArr _ | JObj _ => False | _ => True end ->
  ToString Number_toString v <> None.
Proof. destruct v as [| |[|]| | | |]; simpl; intros H; (discriminate || contradiction). Qed.

(** ** Mode resolution (C3) *)

Lemma detectAdaptiveMode_resolve (question : string) (requestedMode : jsval) :
  part_002_a.detectAdaptiveMode question requestedMode
  = resolve_mode tested_keywords question requestedMode.
Proof.
  unfold part_002_a.detectAdaptiveMode, resolve_mode, tested_keywords.
  set (lower := toLowerCase question). simpl.
  rewrite !orb_false_r, <- !orb_assoc.
  repeat match goal with
         | |- context [if ?b then _ else _] => destruct b; try reflexivity
         end.
Qed.

(** C3 (amended).  For every question text and every requested mode,
    [detectAdaptiveMode] scans the lowercased question against the keyword
    sets stressed/overwhelmed/anxious, hype/motivation/boost,
    discipline/hold me accountable, strategy/optimize/plan in this order,
    first match winning; a question containing overwhelmed yields
    Soothing & Calm whatever mode is requested; with no match the requested
    mode is used when it is truthy, else Warm & Friendly. *)
Theorem C3_detectAdaptiveMode_first_match (question : string) (requestedMode : jsval) :
  part_002_a.detectAdaptiveMode question requestedMode
  = resolve_mode tested_keywords question requestedMode
  /\ (includes question "overwhelmed" = true ->
      part_002_a.detectAdaptiveMode question requestedMode = JStr "Soothing & Calm")
  /\ (first_match (toLowerCase question) tested_keywords = None ->
      part_002_a.detectAdaptiveMode question requestedMode
      = if ToBoolean requestedMode then requestedMode else JStr "Warm & Friendly").
Proof.
  split; [apply detectAdaptiveMode_resolve|]. split.
  - intros H. apply includes_toLowerCase in H.
    change (toLowerCase "overwhelmed") with "overwhelmed" in H.
    unfold part_002_a.detectAdaptiveMode. rewrite H.
    now rewrite orb_true_r.
  - intros H. rewrite detectAdaptiveMode_resolve. unfold resolve_mode. now rewrite H.
Qed.

Lemma C3_overwhelmed_witness :
  includes "Honestly I am overwhelmed by my bills" "overwhelmed" = true
  /\ part_002_a.detectAdaptiveMode "Honestly I am overwhelmed by my bills"
       (JStr "Professional & Direct") = JStr "Soothing & Calm".
Proof.
  split; [reflexivity|].
  apply (proj1 (proj2 (C3_detectAdaptiveMode_first_match
                         "Honestly I am overwhelmed by my bills"
                         (JStr "Professional & Direct")))).
  reflexivity.
Defined.

(** C3 as stated fails: the handler does not test the keywords stress,
    overwhelm, anxiety and accountability.  A question about anxiety keeps the
    requested mode, where the named keyword sets select Soothing & Calm. *)
Lemma C3_named_keywords_counterexample :
  part_002_a.detectAdaptiveMode "I have anxiety about money" (JStr "Professional & Direct")
  = JStr "Professional & Direct"
  /\ resolve_mode named_keywords "I have anxiety about money" (JStr "Professional & Direct")
     = JStr "Soothing & Calm".
Proof. split; reflexivity. Qed.

(** ** The threshold rule (C1) *)

Section Nudge.

Variable Number_toString : number -> string.
Variable StringToNumber : string -> number.

Local Abbreviation ToString' := (ToString Number_toString).
Local Abbreviation ToNumber' := (ToNumber Number_toString StringToNumber).

Lemma js_lt_eq (v : jsval) (x : number) :
  ToNumber' v = Some x ->
  forall n, js_lt Number_toString StringToNumber v n = Some (lt x n).
Proof. unfold js_lt. now intros ->. Qed.

Lemma js_ge_eq (v : jsval) (x : number) :
  ToNumber' v = Some x ->
  forall n, js_ge Number_toString StringToNumber v n = Some (ge x n).
Proof. unfold js_ge. now intros ->. Qed.

(** The record-based mode: the text for the destructured vault. *)
Lemma record_nudge_text_rule
    (emoji : string) (vault_type streak : jsval) (vt s : string) (sn p : number) :
  ToString' vault_type = Some vt ->
  ToString' streak = Some s ->
  ToNumber' streak = Some sn ->
  part_001.nudge_text Number_toString StringToNumber emoji vault_type streak p
  = Some (record_message (threshold_rule p sn (strict_eq_string vault_type "Credit Card"))
            emoji vt s (Number_toString (100 - p)%float)).
Proof.
  intros Hvt Hs Hsn.
  unfold part_001.nudge_text, threshold_rule.
  rewrite Hvt, Hs, (js_ge_eq _ _ Hsn). cbn [bind].
  destruct (lt p 15%float); [reflexivity|].
  destruct (ge sn 5%float); [reflexivity|].
  destruct (ge p 90%float); [reflexivity|].
  now destruct (strict_eq_string vault_type "Credit Card" && ge p 50%float).
Qed.

(** The explicit-field mode: the text for the fields of the request. *)
Lemma explicit_nudge_text_rule
    (vault_type streak progress : jsval) (vt s : string) (sn p : number) :
  ToString' vault_type = Some vt ->
  ToString' streak = Some s ->
  ToNumber' streak = Some sn ->
  ToNumber' progress = Some p ->
  part_002_a.nudge_text Number_toString StringToNumber streak vault_type progress
  = Some (explicit_message (threshold_rule p sn (strict_eq_string vault_type "Credit Card"))
            (explicit_emoji vt) vt s (Number_toString (100 - p)%float)).
Proof.
  intros Hvt Hs Hsn Hp.
  unfold part_002_a.nudge_text, threshold_rule, explicit_emoji.
  rewrite Hvt, Hs, (js_lt_eq _ _ Hp), !(js_ge_eq _ _ Hp), (js_ge_eq _ _ Hsn), Hp.
  cbn [bind].
  destruct (lt p 15%float); [reflexivity|].
  destruct (ge sn 5%float); [reflexivity|].
  destruct (ge p 90%float); [reflexivity|].
  destruct (strict_eq_string vault_type "Credit Card"); cbn [andb bind]; [|reflexivity].
  now destruct (ge p 50%float).
Qed.

(** C1.  Whenever the fields convert without an exception, the nudge text of
    both modes is the message of the same ordered rule: kickstart if
    progress < 15 (whatever the streak), else streak celebration if
    streak >= 5, else near completion (with 100 - progress) if
    progress >= 90, else halfway if vault_type is Credit Card and
    progress >= 50, else generic growth. *)
Theorem C1_threshold_rule_both_modes
    (emoji : string) (vault_type streak progress : jsval)
    (vt s : string) (sn p : number) :
  ToString' vault_type = Some vt ->
  ToString' streak = Some s ->
  ToNumber' streak = Some sn ->
  ToNumber' progress = Some p ->
  let r := threshold_rule p sn (strict_eq_string vault_type "Credit Card") in
  part_001.nudge_text Number_toString StringToNumber emoji vault_type streak p
  = Some (record_message r emoji vt s (Number_toString (100 - p)%float))
  /\ part_002_a.nudge_text Number_toString StringToNumber streak vault_type progress
     = Some (explicit_message r (explicit_emoji vt) vt s (Number_toString (100 - p)%float))
  /\ (lt p 15%float = true -> r = Kickstart).
Proof.
  intros Hvt Hs Hsn Hp r. subst r. split; [|split].
  - now apply record_nudge_text_rule.
  - now apply explicit_nudge_text_rule.
  - unfold threshold_rule. now intros ->.
Qed.

(** The first rule wins over the streak. *)
Lemma kickstart_beats_streak (p sn : number) (credit_card : bool) :
  lt p 15%float = true -> threshold_rule p sn credit_card = Kickstart.
Proof. unfold threshold_rule. now intros ->. Qed.

End Nudge.

Lemma C1_threshold_rule_witness :
  part_001.nudge_text Number_toString_integer StringToNumber_integer
    "💳" (JStr "Credit Card") (JNum 7%float) 10%float
  = Some "Let’s kickstart your 💳 Credit Card vault — even $1 today builds momentum."
  /\ part_002_a.nudge_text Number_toString_integer StringToNumber_integer
       (JNum 7%float) (JStr "Credit Card") (JNum 10%float)
     = Some "Kickstart your 💳 Credit Card vault — even $1 builds momentum.".
Proof.
  destruct (C1_threshold_rule_both_modes Number_toString_integer StringToNumber_integer
              "💳" (JStr "Credit Card") (JNum 7%float) (JNum 10%float)
              "Credit Card" "7" 7%float 10%float
              eq_refl eq_refl eq_refl eq_refl) as (Hrecord & Hexplicit & _).
  split; [exact Hrecord | exact Hexplicit].
Defined.

(** ** The choice of the vault and its progress (C2) *)

Section Vaults.

Variable Number_toString : number -> string.
Variable StringToNumber : string -> number.

Local Abbreviation ToNumber' := (ToNumber Number_toString StringToNumber).
Local Abbreviation streak_at_least_5' := (streak_at_least_5 Number_toString StringToNumber).

(** When the predicate throws on no row, [vaults.find] is [List.find]. *)
Lemma find_row_find (p : jsobj -> option bool) (b : jsobj -> bool) (vaults : list jsobj) :
  (forall v, In v vaults -> p v = Some (b v)) ->
  find_row p vaults = Some (List.find b vaults).
Proof.
  induction vaults as [|v rest IH]; intros H; simpl; [reflexivity|].
  rewrite (H v (or_introl eq_refl)). cbn [bind].
  destruct (b v); [reflexivity|].
  apply IH. intros w Hw. apply H. now right.
Qed.

Lemma pick_vault_select (vaults : list jsobj) :
  (forall v, In v vaults -> ToNumber' (get v "streak") <> None) ->
  part_001.pick_vault Number_toString StringToNumber vaults
  = select_vault streak_at_least_5' is_credit_card vaults.
Proof.
  intros H. unfold part_001.pick_vault, select_vault.
  rewrite (find_row_find _ streak_at_least_5').
  - cbn [bind]. destruct (find streak_at_least_5' vaults); [reflexivity|].
    rewrite (find_row_find _ is_credit_card) by reflexivity.
    cbn [bind]. now destruct (find is_credit_card vaults).
  - intros v Hv. unfold streak_at_least_5, js_ge.
    specialize (H v Hv). now destruct (ToNumber' (get v "streak")).
Qed.

Lemma select_vault_nonempty (f g : jsobj -> bool) (vaults : list jsobj) :
  vaults <> [] -> exists vault, select_vault f g vaults = Some vault.
Proof.
  intros H. unfold select_vault.
  destruct (find f vaults); [eauto|]. destruct (find g vaults); [eauto|].
  destruct vaults; [contradiction|]. simpl. eauto.
Qed.

(** C2.  On a non-empty sequence of vaults whose streaks convert without an
    exception, the vault used is the first with streak >= 5 if there is one,
    else the first whose vault_type is Credit Card if there is one, else the
    first of the sequence; and the nudge is computed from the progress
    Math.round((current_balance / target_amount) * 100) of that vault. *)
Theorem C2_vault_choice_and_progress (vaults : list jsobj) :
  vaults <> [] ->
  (forall v, In v vaults -> ToNumber' (get v "streak") <> None) ->
  exists vault,
    select_vault streak_at_least_5' is_credit_card vaults = Some vault
    /\ part_001.pick_vault Number_toString StringToNumber vaults = Some vault
    /\ forall b t,
         ToNumber' (default_to (JNum 0%float) (get vault "current_balance")) = Some b ->
         ToNumber' (default_to (JNum 1%float) (get vault "target_amount")) = Some t ->
         part_001.progress_of Number_toString StringToNumber
           (default_to (JNum 0%float) (get vault "current_balance"))
           (default_to (JNum 1%float) (get vault "target_amount"))
         = Some (Math_round (b / t * 100)%float)
         /\ part_001.nudge_for Number_toString StringToNumber vaults
            = (emoji <- part_001.emoji_of Number_toString
                          (default_to (JStr "Vault") (get vault "vault_type")) ;;
               part_001.nudge_text Number_toString StringToNumber emoji
                 (default_to (JStr "Vault") (get vault "vault_type"))
                 (default_to (JNum 0%float) (get vault "streak"))
                 (Math_round (b / t * 100)%float)).
Proof.
  intros Hne Hstreak.
  destruct (@select_vault_nonempty streak_at_least_5' is_credit_card vaults Hne) as [vault Hsel].
  exists vault. split; [exact Hsel|].
  assert (Hpick : part_001.pick_vault Number_toString StringToNumber vaults = Some vault)
    by (now rewrite pick_vault_select).
  split; [exact Hpick|].
  intros b t Hb Ht.
  unfold part_001.nudge_for, part_001.progress_of.
  rewrite Hpick. cbn [bind]. rewrite Hb, Ht. cbn [bind]. now split.
Qed.

(** The record-based mode end to end: the nudge computed from the rows is
    the message of the threshold rule for the chosen vault. *)
Lemma nudge_for_rule (vaults : list jsobj) (vault : jsobj) (vt s : string) (sn b t : number) :
  part_001.pick_vault Number_toString StringToNumber vaults = Some vault ->
  ToString Number_toString (default_to (JStr "Vault") (get vault "vault_type")) = Some vt ->
  ToString Number_toString (default_to (JNum 0%float) (get vault "streak")) = Some s ->
  ToNumber' (default_to (JNum 0%float) (get vault "streak")) = Some sn ->
  ToNumber' (default_to (JNum 0%float) (get vault "current_balance")) = Some b ->
  ToNumber' (default_to (JNum 1%float) (get vault "target_amount")) = Some t ->
  let progress := Math_round (b / t * 100)%float in
  part_001.nudge_for Number_toString StringToNumber vaults
  = Some (record_message
            (threshold_rule progress sn
               (strict_eq_string (default_to (JStr "Vault") (get vault "vault_type"))
                  "Credit Card"))
            (record_emoji vt) vt s (Number_toString (100 - progress)%float)).
Proof.
  intros Hpick Hvt Hs Hsn Hb Ht progress.
  unfold part_001.nudge_for, part_001.progress_of, part_001.emoji_of.
  rewrite Hpick. cbn [bind]. rewrite Hb, Ht. cbn [bind]. rewrite Hvt. cbn [bind].
  now apply record_nudge_text_rule.
Qed.

End Vaults.

Lemma nudge_for_rule_witness :
  part_001.nudge_for Number_toString_integer StringToNumber_integer three_vaults
  = Some "Let’s kickstart your 🏠 Rent vault — even $1 today builds momentum.".
Proof.
  apply (nudge_for_rule Number_toString_integer StringToNumber_integer three_vaults
           (nth 1 three_vaults []) "Rent" "7" 7%float 29%float 200%float);
    reflexivity.
Defined.

(** The three examples of progress in the specification, each for a user
    with one vault and a streak below 5. *)
Lemma get_nudge_examples :
  let one_vault vault_type current_balance :=
    table_store (fun o u => strict_eq_string u o)
      [ {| owner := "u1"; archived := false;
           fields := [("vault_type", JStr vault_type); ("streak", JNum 1%float);
                      ("current_balance", JNum current_balance);
                      ("target_amount", JNum 100%float)] |} ] in
  let nudge store :=
    part_001.get_nudge Number_toString_integer StringToNumber_integer
      [("user_id", JStr "u1")] store in
  nudge (one_vault "Rent" 0%float)
  = {| status := 200;
       body := Json [("nudge",
                      JStr "Let’s kickstart your 🏠 Rent vault — even $1 today builds momentum.")] |}
  /\ nudge (one_vault "Rent" 90%float)
     = {| status := 200;
          body := Json [("nudge",
                         JStr "🎯 You're 10% away from finishing your 🏠 Rent vault. Almost there!")] |}
  /\ nudge (one_vault "Credit Card" 50%float)
     = {| status := 200;
          body := Json [("nudge",
                         JStr "👏 Halfway to crushing your 💳 Credit Card vault. Every day makes a difference.")] |}.
Proof. repeat apply conj; reflexivity. Qed.

Lemma C2_vault_choice_witness :
  exists vault,
    select_vault (streak_at_least_5 Number_toString_integer StringToNumber_integer)
      is_credit_card three_vaults = Some vault
    /\ part_001.pick_vault Number_toString_integer StringToNumber_integer three_vaults
       = Some vault
    /\ get vault "vault_type" = JStr "Rent".
Proof.
  destruct (C2_vault_choice_and_progress Number_toString_integer StringToNumber_integer
              three_vaults) as [vault (Hsel & Hpick & _)].
  - discriminate.
  - intros v [<-|[<-|[<-|[]]]]; discriminate.
  - exists vault. repeat split; trivial.
    vm_compute in Hsel. now injection Hsel as <-.
Defined.

(** ** No vaults (C8) *)

Lemma filter_none {A : Type} (f : A -> bool) (l : list A) :
  (forall x, In x l -> f x = false) -> filter f l = [].
Proof.
  induction l as [|x l IH]; intros H; simpl; [reflexivity|].
  rewrite (H x (or_introl eq_refl)). apply IH. intros y Hy. apply H. now right.
Qed.

(** The handler's answer when the query yields no rows. *)
Lemma get_nudge_no_rows
    (Number_toString : number -> string) (StringToNumber : string -> number)
    (body : jsobj) (supabase : store) (data : option (list jsobj)) (err : jsval) :
  ToBoolean (get body "user_id") = true ->
  supabase {| columns := "*"; user_id_eq := get body "user_id"; archived_eq := false |}
  = StoreReplies data err ->
  ToBoolean err = false ->
  data = None \/ data = Some [] ->
  part_001.get_nudge Number_toString StringToNumber body supabase
  = {| status := 200; body := Json [("nudge", JStr part_001.no_vaults)] |}.
Proof.
  intros Hid Hq Herr Hdata. unfold part_001.get_nudge.
  rewrite Hid, Hq, Herr. cbn [negb]. now destruct Hdata as [->| ->].
Qed.

(** C8.  When every vault of the user is archived, or the user has none, the
    query for the non-archived vaults yields no rows and /get-nudge answers
    200 with the fixed message; the same holds for any store whose answer
    holds no rows and no error.  No rule is consulted: the answer depends on
    nothing else. *)
Theorem C8_no_vaults_message
    (Number_toString : number -> string) (StringToNumber : string -> number)
    (same_user : string -> jsval -> bool) (rows : list vault_row) (body : jsobj) :
  ToBoolean (get body "user_id") = true ->
  (forall r, In r rows -> same_user (owner r) (get body "user_id") = true ->
             archived r = true) ->
  part_001.get_nudge Number_toString StringToNumber body (table_store same_user rows)
  = {| status := 200; body := Json [("nudge", JStr part_001.no_vaults)] |}.
Proof.
  intros Hid Harch.
  apply get_nudge_no_rows with (data := Some []) (err := JNull); auto.
  unfold table_store. cbn [user_id_eq archived_eq]. rewrite filter_none; [reflexivity|].
  intros r Hr. specialize (Harch r Hr).
  destruct (same_user (owner r) (get body "user_id")); [|reflexivity].
  now rewrite Harch.
Qed.

Lemma C8_no_vaults_witness :
  part_001.get_nudge Number_toString_integer StringToNumber_integer
    [("user_id", JStr "u1")]
    (table_store (fun o u => strict_eq_string u o)
       [ {| owner := "u1"; archived := true;
            fields := [("vault_type", JStr "Rent"); ("streak", JNum 9%float)] |};
         {| owner := "u2"; archived := false;
            fields := [("vault_type", JStr "Car"); ("streak", JNum 1%float)] |} ])
  = {| status := 200;
       body := Json [("nudge",
                      JStr "You don’t have any vaults yet. Create one and start saving today 💰.")] |}.
Proof.
  apply (C8_no_vaults_message Number_toString_integer StringToNumber_integer).
  - reflexivity.
  - intros r [<-|[<-|[]]]; [reflexivity|discriminate].
Defined.

(** ** Determinism of the nudge (C9) *)

(** A program that never draws runs alike in two worlds whose stores answer
    alike. *)
Lemma draws_nothing_run {A : Type} (p : program A) (e1 e2 : environment) (n1 n2 : nat) :
  draws_nothing p ->
  (forall q, supabase_of e1 q = supabase_of e2 q) ->
  run e1 n1 p = run e2 n2 p.
Proof.
  intros Hp Hstore. induction Hp as [a|q k _ IH]; cbn [run]; [reflexivity|].
  rewrite Hstore. apply IH.
Qed.

Lemma record_nudge_draws_nothing
    (Number_toString : number -> string) (StringToNumber : string -> number) (body : jsobj) :
  draws_nothing (record_nudge Number_toString StringToNumber body).
Proof.
  unfold record_nudge. destruct (negb (ToBoolean _)); repeat constructor.
Qed.

(** The programs run as the handlers compute. *)
Lemma run_record_nudge
    (Number_toString : number -> string) (StringToNumber : string -> number)
    (e : environment) (drawn : nat) (body : jsobj) :
  run e drawn (record_nudge Number_toString StringToNumber body)
  = part_001.get_nudge Number_toString StringToNumber body (supabase_of e).
Proof.
  unfold record_nudge, part_001.get_nudge. now destruct (negb (ToBoolean _)).
Qed.

Lemma run_daily_nudge (e : environment) (drawn : nat) (body : jsobj) :
  run e drawn (daily_nudge body) = part_002_b.get_nudge body (random_of e drawn).
Proof.
  unfold daily_nudge, part_002_b.get_nudge. now destruct (negb (ToBoolean _)).
Qed.

(** C9 (amended).  The record-based /get-nudge of part_001 and
    /v1/coach/nudge never call Math.random: their response is a function of
    the request body and of the store's answers, the same in two runs
    whatever the runs draw, and it is the response of the handlers of C1, C2,
    C8 and C10.  The /get-nudge of part_002 draws once for a request with a
    user_id and answers [dailyNudges[Math.floor(Math.random() * 5)]]: its
    response is a function of the body and of that draw, not of the body
    alone. *)
Theorem C9_nudge_determinism
    (Number_toString : number -> string) (StringToNumber : string -> number) :
  (forall body, draws_nothing (record_nudge Number_toString StringToNumber body))
  /\ (forall body, draws_nothing (explicit_nudge Number_toString StringToNumber body))
  /\ deterministic (record_nudge Number_toString StringToNumber)
  /\ deterministic (explicit_nudge Number_toString StringToNumber)
  /\ (forall e body,
        run e 0 (record_nudge Number_toString StringToNumber body)
        = part_001.get_nudge Number_toString StringToNumber body (supabase_of e))
  /\ (forall e body,
        run e 0 (explicit_nudge Number_toString StringToNumber body)
        = part_002_a.coach_nudge Number_toString StringToNumber body)
  /\ (forall e body,
        ToBoolean (get body "user_id") = true ->
        ~ draws_nothing (daily_nudge body)
        /\ run e 0 (daily_nudge body)
           = {| status := 200;
                body := Json [("message",
                               part_002_b.element_at part_002_b.dailyNudges 0
                                 (Math_floor (random_of e 0 * 5)%float))] |})
  /\ (forall e1 e2 body,
        random_of e1 0%nat = random_of e2 0%nat ->
        run e1 0 (daily_nudge body) = run e2 0 (daily_nudge body)).
Proof.
  repeat apply conj.
  - apply record_nudge_draws_nothing.
  - intros body. constructor.
  - intros e1 e2 body Hstore.
    apply draws_nothing_run; [apply record_nudge_draws_nothing|exact Hstore].
  - intros e1 e2 body Hstore. apply draws_nothing_run; [constructor|exact Hstore].
  - intros e body. apply run_record_nudge.
  - reflexivity.
  - intros e body Hid. split.
    + intros Hd. unfold daily_nudge in Hd. rewrite Hid in Hd. inversion Hd.
    + rewrite run_daily_nudge. unfold part_002_b.get_nudge. now rewrite Hid.
  - intros e1 e2 body Hdraw. rewrite !run_daily_nudge. now rewrite Hdraw.
Qed.

Lemma C9_nudge_determinism_witness :
  run {| supabase_of := fun _ => StoreReplies (Some three_vaults) JNull;
         random_of := fun _ => 0%float |} 0
      (record_nudge Number_toString_integer StringToNumber_integer [("user_id", JStr "u1")])
  = run {| supabase_of := fun _ => StoreReplies (Some three_vaults) JNull;
           random_of := fun _ => 0.5%float |} 0
        (record_nudge Number_toString_integer StringToNumber_integer [("user_id", JStr "u1")]).
Proof.
  apply (proj1 (proj2 (proj2 (C9_nudge_determinism
                                Number_toString_integer StringToNumber_integer)))).
  reflexivity.
Defined.

(** C9 as stated fails on the /get-nudge of part_002: the same request, with
    the same store, gets two different messages in two runs whose random
    draws are 0 and 0.5. *)
Lemma C9_daily_nudge_counterexample :
  part_002_b.get_nudge [("user_id", JStr "u1")] 0%float
  = {| status := 200;
       body := Json [("message",
                      JStr "You’re only one small deposit away from keeping your streak alive.")] |}
  /\ part_002_b.get_nudge [("user_id", JStr "u1")] 0.5%float
     = {| status := 200;
          body := Json [("message", JStr "Missing a day is okay, but don’t make it two.")] |}
  /\ ~ deterministic daily_nudge.
Proof.
  split; [reflexivity|]. split; [reflexivity|].
  intros H.
  specialize (H {| supabase_of := fun _ => StoreRejects; random_of := fun _ => 0%float |}
                {| supabase_of := fun _ => StoreRejects; random_of := fun _ => 0.5%float |}
                [("user_id", JStr "u1")] (fun _ => eq_refl)).
  vm_compute in H. discriminate H.
Qed.

(** ** The explicit-field endpoint without validation (C10) *)

Section Unvalidated.

Variable Number_toString : number -> string.
Variable StringToNumber : string -> number.

Local Abbreviation ToString' := (ToString Number_toString).
Local Abbreviation ToNumber' := (ToNumber Number_toString StringToNumber).
Local Abbreviation coach_nudge' := (part_002_a.coach_nudge Number_toString StringToNumber).

(** A value converts to a Number when it converts to text. *)
Lemma ToNumber_of_ToString (v : jsval) :
  ToString' v <> None -> exists x, ToNumber' v = Some x.
Proof.
  intros H. destruct v as [| |[|]|x|t|items|props]; try (simpl; eauto; fail).
  - unfold ToNumber. destruct (ToString' (JArr items)); [simpl; eauto|contradiction].
  - unfold ToNumber. destruct (ToString' (JObj props)); [simpl; eauto|contradiction].
Qed.

(** A value converts to text when it converts to a Number. *)
Lemma ToString_of_ToNumber (v : jsval) :
  ToNumber' v <> None -> exists s, ToString' v = Some s.
Proof.
  destruct v as [| |[|]|x|t|items|props]; try (simpl; eauto; fail); unfold ToNumber;
    (destruct (ToString' _); [eauto|simpl; contradiction]).
Qed.

(** The handler answers 500 exactly when a conversion it performs throws. *)
Lemma coach_nudge_throws (body : jsobj) :
  coach_nudge' body = {| status := 500; body := error "Nudge failed." |} <->
  ToString' (get body "vault_type") = None
  \/ ToNumber' (get body "progress") = None
  \/ exists p, ToNumber' (get body "progress") = Some p
               /\ lt p 15%float = false
               /\ ToNumber' (get body "streak") = None.
Proof.
  unfold part_002_a.coach_nudge, part_002_a.nudge_text, js_lt, js_ge.
  destruct (ToString' (get body "vault_type")) as [vt|] eqn:Evt; cbn [bind];
    [|split; auto].
  destruct (ToNumber' (get body "progress")) as [p|] eqn:Ep; cbn [bind option_map];
    [|split; auto].
  destruct (lt p 15%float) eqn:Elt.
  - split; [discriminate|].
    intros [H|[H|(q & Hq & Hlt & _)]]; try discriminate. congruence.
  - destruct (ToNumber' (get body "streak")) as [sn|] eqn:Esn; cbn [bind option_map].
    + destruct (ToString_of_ToNumber (get body "streak")) as [s Es]; [congruence|].
      rewrite Es. cbn [bind].
      split.
      * intros H500. exfalso. revert H500.
        destruct (ge sn 5%float); [discriminate|].
        destruct (ge p 90%float); [discriminate|].
        destruct (strict_eq_string _ _); [destruct (ge p 50%float)|]; discriminate.
      * intros [H|[H|(q & Hq & _ & Hs)]]; discriminate.
    + split; [|reflexivity]. intros _. right. right. exists p. auto.
Qed.

Lemma coach_nudge_status (body : jsobj) :
  (exists nudge, coach_nudge' body = {| status := 200; body := Json [("nudge", JStr nudge)] |})
  \/ coach_nudge' body = {| status := 500; body := error "Nudge failed." |}.
Proof.
  unfold part_002_a.coach_nudge.
  destruct (part_002_a.nudge_text _ _ _ _ _); eauto.
Qed.

(** C10 (amended).  /v1/coach/nudge validates nothing and never answers 400:
    for every JSON object it answers 200 with a nudge string, or 500 with
    the error Nudge failed.  It answers 500 exactly when a conversion it
    performs throws: that of vault_type, that of progress, or that of
    streak, which is converted only when progress is not below 15; so a
    vault_type or a progress that is an object with an own toString property
    gets 500.  It answers 200 whenever the three fields convert.  When
    progress is absent the comparisons of progress are false, so the nudge
    is the streak celebration if streak >= 5 and the generic growth message
    otherwise, with the emoji of vault_type; when all three fields are
    absent it is the generic growth message with the default emoji and the
    text undefined. *)
Theorem C10_coach_nudge_unvalidated (body : jsobj) :
  status (coach_nudge' body) <> 400
  /\ ((exists nudge,
         coach_nudge' body = {| status := 200; body := Json [("nudge", JStr nudge)] |})
      \/ coach_nudge' body = {| status := 500; body := error "Nudge failed." |})
  /\ (coach_nudge' body = {| status := 500; body := error "Nudge failed." |} <->
      ToString' (get body "vault_type") = None
      \/ ToNumber' (get body "progress") = None
      \/ exists p, ToNumber' (get body "progress") = Some p
                   /\ lt p 15%float = false
                   /\ ToNumber' (get body "streak") = None)
  /\ (forall field props,
        field = "vault_type" \/ field = "progress" ->
        get body field = JObj props -> has_own props "toString" = true ->
        coach_nudge' body = {| status := 500; body := error "Nudge failed." |})
  /\ (ToString' (get body "vault_type") <> None ->
      ToString' (get body "streak") <> None ->
      ToString' (get body "progress") <> None ->
      exists nudge,
        coach_nudge' body = {| status := 200; body := Json [("nudge", JStr nudge)] |})
  /\ (get body "progress" = JUndefined ->
      forall vt s sn,
        ToString' (get body "vault_type") = Some vt ->
        ToString' (get body "streak") = Some s ->
        ToNumber' (get body "streak") = Some sn ->
        coach_nudge' body
        = {| status := 200;
             body := Json [("nudge",
                            JStr (explicit_message
                                    (if ge sn 5%float then StreakCelebration else GenericGrowth)
                                    (explicit_emoji vt) vt s
                                    (Number_toString (100 - PrimFloat.nan)%float)))] |})
  /\ (get body "streak" = JUndefined ->
      get body "vault_type" = JUndefined ->
      get body "progress" = JUndefined ->
      coach_nudge' body
      = {| status := 200;
           body := Json [("nudge",
                          JStr "Your 🏦 undefined vault is growing. Add a little today 🌱")] |}).
Proof.
  repeat apply conj.
  - destruct (coach_nudge_status body) as [[nudge ->]| ->]; discriminate.
  - apply coach_nudge_status.
  - apply coach_nudge_throws.
  - apply coach_nudge_throws.
  - intros field props Hf Hget Hown. apply coach_nudge_throws.
    destruct Hf as [-> | ->]; rewrite Hget.
    + left. cbn [ToString]. now rewrite Hown.
    + right. left. unfold ToNumber. cbn [ToString]. now rewrite Hown.
  - intros Hvt Hs Hp.
    destruct (ToNumber_of_ToString _ Hs) as [sn Hsn].
    destruct (ToNumber_of_ToString _ Hp) as [p Hpn].
    destruct (ToString' (get body "vault_type")) as [vt|] eqn:Evt; [|contradiction].
    destruct (ToString' (get body "streak")) as [s|] eqn:Es; [|contradiction].
    unfold part_002_a.coach_nudge.
    rewrite (explicit_nudge_text_rule Number_toString StringToNumber
               _ _ _ _ _ _ _ Evt Es Hsn Hpn). eauto.
  - intros Hp vt s sn Hvt Hs Hsn.
    unfold part_002_a.coach_nudge.
    assert (Hnan : ToNumber' (get body "progress") = Some PrimFloat.nan) by now rewrite Hp.
    rewrite (explicit_nudge_text_rule Number_toString StringToNumber
               _ _ _ _ _ _ _ Hvt Hs Hsn Hnan).
    unfold threshold_rule.
    change (lt PrimFloat.nan 15%float) with false.
    change (ge PrimFloat.nan 90%float) with false.
    change (ge PrimFloat.nan 50%float) with false.
    rewrite andb_false_r. now destruct (ge sn 5%float).
  - intros Hs Hvt Hp. unfold part_002_a.coach_nudge, part_002_a.nudge_text.
    rewrite Hs, Hvt, Hp. reflexivity.
Qed.

End Unvalidated.

Lemma C10_coach_nudge_witness :
  part_002_a.coach_nudge Number_toString_integer StringToNumber_integer
    [("vault_type", JStr "Car"); ("streak", JNum 2%float)]
  = {| status := 200;
       body := Json [("nudge", JStr "Your 🚗 Car vault is growing. Add a little today 🌱")] |}.
Proof.
  apply (proj1 (proj2 (proj2 (proj2 (proj2 (proj2
           (C10_coach_nudge_unvalidated
              Number_toString_integer StringToNumber_integer
              [("vault_type", JStr "Car"); ("streak", JNum 2%float)]))))))
           eq_refl "Car" "2" 2%float eq_refl eq_refl eq_refl).
Defined.

(** C10 as stated fails: with progress absent the comparison streak >= 5 can
    still be true, and the answer is then the streak celebration, not the
    generic growth message; and a body whose vault_type is an object with an
    own toString property is answered 500, not 200. *)
Lemma C10_streak_counterexample :
  get [("streak", JNum 7%float)] "progress" = JUndefined
  /\ part_002_a.coach_nudge Number_toString_integer StringToNumber_integer
       [("streak", JNum 7%float)]
     = {| status := 200;
          body := Json [("nudge",
                         JStr "🔥 You're on a 7-day streak in your 🏦 undefined vault!")] |}
  /\ part_002_a.coach_nudge Number_toString_integer StringToNumber_integer
       [("vault_type", JObj [("toString", JNum 1%float)])]
     = {| status := 500; body := Json [("error", JStr "Nudge failed.")] |}.
Proof. repeat apply conj; reflexivity. Qed.

(** A field that throws on conversion gets 500, not 200. *)
Lemma coach_nudge_type_error :
  part_002_a.coach_nudge Number_toString_integer StringToNumber_integer
    [("vault_type", JObj [("toString", JNum 1%float)])]
  = {| status := 500; body := Json [("error", JStr "Nudge failed.")] |}.
Proof. reflexivity. Qed.

(** ** The caller's system prompt (C6) *)

Section Prompt.

Variable Number_toString : number -> string.

Local Abbreviation ToString' := (ToString Number_toString).

(** The memory turn of a message list: none, or the labelled memory. *)
Lemma memory_note_cases (memory : jsval) (m : string) :
  ToString' memory = Some m ->
  part_000.memory_note Number_toString memory
  = Some (if ToBoolean memory
          then [ {| role := system;
                    content := JStr ("Here is recent user context:" ++ nl ++ m) |} ]
          else []).
Proof.
  intros H. unfold part_000.memory_note. rewrite H. now destruct (ToBoolean memory).
Qed.

Lemma system_turns_compose (p q : jsval) (note : list turn) :
  system_turns ({| role := system; content := p |}
                :: note ++ [ {| role := user; content := q |} ])%list
  = (p :: system_turns note)%list.
Proof.
  unfold system_turns. cbn [filter role map]. f_equal.
  rewrite filter_app, map_app. cbn. apply app_nil_r.
Qed.

(** C6 (amended).  For every /ask request of part_000 with a question and a
    caller system prompt, the prompt is the content of the first system turn
    as it was passed, and no template is synthesized.  It is the only system
    turn when memory is absent or empty; a non-empty memory adds one more
    system turn, the labelled memory, between it and the user turn. *)
Theorem C6_caller_prompt_verbatim (body : jsobj) (up : upstream) (m : string) :
  ToBoolean (get body "question") = true ->
  ToBoolean (get body "systemPrompt") = true ->
  ToString' (default_to (JStr "") (get body "memory")) = Some m ->
  let memory := default_to (JStr "") (get body "memory") in
  let note := if ToBoolean memory
              then [ {| role := system;
                        content := JStr ("Here is recent user context:" ++ nl ++ m) |} ]
              else [] in
  map messages (upstream_calls (part_000.ask Number_toString body up))
  = [ ({| role := system; content := get body "systemPrompt" |}
       :: note ++ [ {| role := user; content := get body "question" |} ])%list ]
  /\ flat_map (fun call => system_turns (messages call))
       (upstream_calls (part_000.ask Number_toString body up))
     = (get body "systemPrompt" :: map content note)%list.
Proof.
  intros Hq Hp Hm memory note.
  assert (Hcalls : map messages (upstream_calls (part_000.ask Number_toString body up))
                   = [ ({| role := system; content := get body "systemPrompt" |}
                        :: note ++ [ {| role := user; content := get body "question" |} ])%list ]).
  { unfold part_000.ask, part_000.compose, or_else.
    rewrite Hq, Hp, (memory_note_cases _ _ Hm). cbn [negb bind].
    now destruct up. }
  split; [exact Hcalls|].
  rewrite flat_map_concat_map, <- map_map, Hcalls. cbn [map List.concat].
  rewrite app_nil_r, system_turns_compose. f_equal.
  subst note. now destruct (ToBoolean memory).
Qed.

End Prompt.

Lemma C6_caller_prompt_witness :
  map messages (upstream_calls (part_000.ask Number_toString_integer
                                  [("question", JStr "How do I start?");
                                   ("systemPrompt", JStr "Be brief.")] Rejects))
  = [ [ {| role := system; content := JStr "Be brief." |};
        {| role := user; content := JStr "How do I start?" |} ] ].
Proof.
  apply (proj1 (C6_caller_prompt_verbatim Number_toString_integer
                  [("question", JStr "How do I start?"); ("systemPrompt", JStr "Be brief.")]
                  Rejects "" eq_refl eq_refl eq_refl)).
Defined.

(** C6 as stated fails: with a memory the message list holds a second system
    turn beside the caller's prompt. *)
Lemma C6_memory_counterexample :
  flat_map (fun call => system_turns (messages call))
    (upstream_calls (part_000.ask Number_toString_integer brief_with_memory Rejects))
  = [ JStr "Be brief.";
      JStr ("Here is recent user context:" ++ nl ++ "Saved $5 yesterday.") ].
Proof. reflexivity. Qed.

(** ** The reply of a completion (C7) *)

Lemma content_or_reply (fallback : string) (c : chat_completion) :
  content_or fallback c = reply_text false fallback (first_content c).
Proof. reflexivity. Qed.

Lemma trimmed_content_or_reply (fallback : string) (c : chat_completion) :
  trimmed_content_or fallback c = reply_text true fallback (first_content c).
Proof. reflexivity. Qed.

Ltac handler_cases :=
  repeat match goal with
         | |- context [if ?b then _ else _] => destruct b
         | |- context [match ?x with Some _ => _ | None => _ end] => destruct x
         | H : upstream_calls (respond _ _ []) <> [] |- _ => now elim H
         | H : [] <> [] |- _ => now elim H
         | p : (_ * _)%type |- _ => destruct p
         end.

(** C7 (amended).  Whenever a non-streaming handler called the completion
    API and the call resolved, its reply is the first choice's content, and
    the fixed fallback when that content is missing or empty.  The /ask of
    part_000, part_001, part_004 and of the second server of part_003 trim
    the content first (so whitespace alone also yields the fallback
    No reply generated.); the /ask of index.js and of the first server of
    part_003 and /v1/coach/ask (whose fallback is the try-rephrasing
    sentence) return it untrimmed. *)
Theorem C7_reply_of_first_choice
    (Number_toString : number -> string) (StringToNumber : string -> number)
    (body : jsobj) (c : chat_completion) :
  (upstream_calls (index_js.ask body (Resolves c)) <> [] ->
   reply_of (index_js.ask body (Resolves c))
   = Some (JStr (reply_text false "No reply generated." (first_content c))))
  /\ reply_of (part_003_a.ask body (Resolves c))
     = Some (JStr (reply_text false "No reply generated." (first_content c)))
  /\ (forall supabase,
        upstream_calls (part_002_a.coach_ask Number_toString StringToNumber body supabase
                          (Resolves c)) <> [] ->
        reply_of (part_002_a.coach_ask Number_toString StringToNumber body supabase (Resolves c))
        = Some (JStr (reply_text false part_002_a.rephrase (first_content c))))
  /\ (upstream_calls (part_000.ask Number_toString body (Resolves c)) <> [] ->
      reply_of (part_000.ask Number_toString body (Resolves c))
      = Some (JStr (reply_text true "No reply generated." (first_content c))))
  /\ (upstream_calls (part_001.ask Number_toString body (Resolves c)) <> [] ->
      reply_of (part_001.ask Number_toString body (Resolves c))
      = Some (JStr (reply_text true "No reply generated." (first_content c))))
  /\ (forall history,
        upstream_calls (fst (part_004.ask body (Resolves c) history)) <> [] ->
        reply_of (fst (part_004.ask body (Resolves c) history))
        = Some (JStr (reply_text true "No reply generated." (first_content c))))
  /\ (forall history,
        upstream_calls (fst (part_003_b.ask body (Resolves c) history)) <> [] ->
        reply_of (fst (part_003_b.ask body (Resolves c) history))
        = Some (JStr (reply_text true "No reply generated." (first_content c)))).
Proof.
  repeat apply conj.
  - unfold index_js.ask. intros H. handler_cases. reflexivity.
  - reflexivity.
  - intros supabase. unfold part_002_a.coach_ask.
    destruct (negb (ToBoolean (get body "question"))); [intros H; now elim H|].
    destruct (part_002_a.prepare _ _ _ _ _ _) as [[messages finalMode]|];
      [reflexivity|intros H; now elim H].
  - unfold part_000.ask. intros H. handler_cases; try reflexivity. now elim H.
  - unfold part_001.ask. intros H. handler_cases; try reflexivity. now elim H.
  - intros history. unfold part_004.ask.
    destruct (negb (ToBoolean _)); cbn [fst]; intros H; [now elim H|reflexivity].
  - intros history. unfold part_003_b.ask.
    destruct (negb (ToBoolean _)); cbn [fst]; intros H; [now elim H|reflexivity].
Qed.

Lemma C7_reply_witness :
  reply_of (part_000.ask Number_toString_integer [("question", JStr "How am I doing?")]
              (Resolves (completion_with "  Keep going!  ")))
  = Some (JStr "Keep going!").
Proof.
  apply (proj1 (proj2 (proj2 (proj2 (C7_reply_of_first_choice
                  Number_toString_integer StringToNumber_integer
                  [("question", JStr "How am I doing?")]
                  (completion_with "  Keep going!  ")))))).
  discriminate.
Defined.

(** C7 as stated fails on /v1/coach/ask: the reply is the content with its
    surrounding whitespace, not the trimmed text. *)
Lemma C7_coach_ask_counterexample :
  reply_of (part_002_a.coach_ask Number_toString_integer StringToNumber_integer
              [("question", JStr "How am I doing?")] (fun _ => StoreRejects)
              (Resolves (completion_with "  Keep going!  ")))
  = Some (JStr "  Keep going!  ")
  /\ trim "  Keep going!  " = "Keep going!".
Proof. split; reflexivity. Qed.

(** ** Validation of the question (C4) *)

(** C4, on the first server of part_003: a request with no message is not
    answered 400; the handler calls the completion API with an undefined
    user content. *)
Theorem C4_legacy_ask_forwards_missing_message (up : upstream) :
  map messages (upstream_calls (part_003_a.ask [] up))
  = [ [ {| role := system; content := JStr "You are the AI Vault Coach." |};
        {| role := user; content := JUndefined |} ] ]
  /\ status_of (part_003_a.ask [] up) <> Some 400.
Proof. destruct up; split; (reflexivity || discriminate). Qed.

(** Every other ask handler answers 400 to a missing or empty question
    without calling the completion API. *)
Lemma ask_rejects_missing_question
    (Number_toString : number -> string) (StringToNumber : string -> number)
    (body : jsobj) (up : upstream) (ups : upstream_stream)
    (supabase : store) (history : list turn) :
  ToBoolean (get body "question") = false ->
  part_000.ask Number_toString body up = respond 400 (error "Missing question.") []
  /\ part_001.ask Number_toString body up = respond 400 (error "Missing question.") []
  /\ part_000.ask_stream Number_toString body ups = (Some (part_000.Failed 400 "Missing question."), [])
  /\ part_002_a.coach_ask Number_toString StringToNumber body supabase up
     = respond 400 (error "Missing question.") []
  /\ (ToBoolean (get body "message") = false ->
      index_js.ask body up = respond 400 (error "Missing message input.") []
      /\ part_004.ask body up history
         = (respond 400 (error "Missing message input.") [], history)
      /\ part_003_b.ask body up history
         = (respond 400 (error "Missing message input.") [], history)).
Proof.
  intros Hq.
  unfold part_000.ask, part_001.ask, part_000.ask_stream, part_002_a.coach_ask.
  rewrite Hq. cbn [negb]. repeat apply conj; try reflexivity.
  intros Hm.
  unfold index_js.ask, part_004.ask, part_003_b.ask, or_else.
  rewrite Hq, Hm. cbn [negb]. repeat apply conj; reflexivity.
Qed.

(** ** The rolling history (C5) *)

Lemma slice_last_length {A : Type} (n : nat) (a : list A) :
  List.length (slice_last n a) = Nat.min n (List.length a).
Proof. unfold slice_last. rewrite length_skipn. lia. Qed.

(** After the user turn is pushed the history holds at most 3 turns. *)
Lemma user_push_window (h : list turn) (t : turn) :
  let pushed := (h ++ [t])%list in
  (List.length (if (3 <? List.length pushed)%nat then slice_last 3 pushed else pushed) <= 3)%nat.
Proof.
  intros pushed. destruct (3 <? List.length pushed)%nat eqn:E.
  - rewrite slice_last_length. lia.
  - apply Nat.ltb_ge in E. exact E.
Qed.

(** So the truncation to 6 after the assistant turn does not apply when no
    other request has pushed a turn in between. *)
Lemma assistant_push_window (h : list turn) (t : turn) :
  (List.length h <= 3)%nat ->
  let pushed := (h ++ [t])%list in
  (if (6 <? List.length pushed)%nat then slice_last 6 pushed else pushed) = pushed.
Proof.
  intros H pushed. destruct (6 <? List.length pushed)%nat eqn:E; [|reflexivity].
  apply Nat.ltb_lt in E. subst pushed. rewrite length_app in E. simpl in E. lia.
Qed.

(** One request leaves at most 4 turns behind, whatever the history was,
    unless it was answered 400, and its call carries at most 3 turns of
    history, the new user turn included. *)
Lemma ask_history_window (body : jsobj) (up : upstream) (history : list turn) :
  let '(o, h) := part_004.ask body up history in
  (status_of o = Some 400 /\ h = history /\ upstream_calls o = [])
  \/ ((List.length h <= 4)%nat
      /\ exists call, upstream_calls o = [call]
                      /\ (List.length (messages call) <= 1 + 3)%nat).
Proof.
  unfold part_004.ask.
  set (u := {| role := user; content := _ |}).
  pose proof (user_push_window history u) as Hw. cbv zeta in Hw.
  destruct (negb (ToBoolean _)); [left; repeat split|].
  destruct up as [|c]; cbv beta iota zeta; right.
  - split; [lia|]. eexists. split; [reflexivity|].
    cbn [messages List.length]. lia.
  - set (a := {| role := assistant; content := _ |}).
    pose proof (assistant_push_window _ a Hw) as Hd. cbv zeta in Hd. rewrite Hd.
    split; [rewrite length_app; cbn [List.length]; lia|].
    eexists. split; [reflexivity|]. cbn [messages List.length]. lia.
Qed.

(** C5, on part_004 and on the second server of part_003: after three
    exchanges the history holds the last two exchanges (4 turns: 2 user,
    2 assistant), not three, and the third call carried 2 prior turns before
    the new user turn. *)
Theorem C5_history_keeps_two_exchanges :
  let run := serve part_004.ask [asks "q1" "r1"; asks "q2" "r2"; asks "q3" "r3"] [] in
  snd run
  = [ {| role := user; content := JStr "q2" |};
      {| role := assistant; content := JStr "r2" |};
      {| role := user; content := JStr "q3" |};
      {| role := assistant; content := JStr "r3" |} ]
  /\ map (fun o => map (fun call => tl (messages call)) (upstream_calls o)) (fst run)
     = [ [ [ {| role := user; content := JStr "q1" |} ] ];
         [ [ {| role := user; content := JStr "q1" |};
             {| role := assistant; content := JStr "r1" |};
             {| role := user; content := JStr "q2" |} ] ];
         [ [ {| role := user; content := JStr "q2" |};
             {| role := assistant; content := JStr "r2" |};
             {| role := user; content := JStr "q3" |} ] ] ]
  /\ snd (serve part_003_b.ask [asks "q1" "r1"; asks "q2" "r2"; asks "q3" "r3"] []) = snd run.
Proof. repeat apply conj; reflexivity. Qed.

(** With requests handled one at a time, a history of at most 4 turns stays
    so. *)
Lemma served_history_bound (requests : list (jsobj * upstream)) (history : list turn) :
  (List.length history <= 4)%nat ->
  (List.length (snd (serve part_004.ask requests history)) <= 4)%nat.
Proof.
  revert history. induction requests as [|[body up] rest IH]; intros history H; simpl.
  - exact H.
  - pose proof (ask_history_window body up history) as Hw.
    destruct (part_004.ask body up history) as [o h].
    specialize (IH h). destruct (serve part_004.ask rest h) as [os h'].
    simpl in *. apply IH. destruct Hw as [(_ & -> & _)|[Hh _]]; assumption.
Qed.

Lemma ask_rejects_missing_question_witness :
  index_js.ask [("question", JStr ""); ("mode", JStr "Strict")] Rejects
  = respond 400 (error "Missing message input.") [].
Proof.
  apply (proj2 (proj2 (proj2 (proj2
           (ask_rejects_missing_question Number_toString_integer StringToNumber_integer
              [("question", JStr ""); ("mode", JStr "Strict")] Rejects StreamRejects
              (fun _ => StoreRejects) [] eq_refl)))) eq_refl).
Defined.

(** * Further properties of the handlers *)

(** ** The choice of the vault, whatever the rows *)

Lemma find_row_some (p : jsobj -> option bool) (vaults : list jsobj) (v : jsobj) :
  find_row p vaults = Some (Some v) ->
  exists before after,
    vaults = (before ++ v :: after)%list
    /\ p v = Some true
    /\ forall w, In w before -> p w = Some false.
Proof.
  induction vaults as [|x rest IH]; simpl; [discriminate|].
  destruct (p x) as [[|]|] eqn:E; cbn [bind]; [| |discriminate].
  - intros H. assert (x = v) by congruence. subst x. exists [], rest. repeat split; trivial.
    intros w [].
  - intros H. destruct (IH H) as (before & after & -> & Hv & Hb).
    exists (x :: before), after. repeat split; trivial.
    intros w [<-|Hw]; auto.
Qed.

Lemma find_row_none (p : jsobj -> option bool) (vaults : list jsobj) :
  find_row p vaults = Some None -> forall w, In w vaults -> p w = Some false.
Proof.
  induction vaults as [|x rest IH]; simpl; [intros _ w []|].
  destruct (p x) as [[|]|] eqn:E; cbn [bind]; [discriminate| |discriminate].
  intros H w [<-|Hw]; auto.
Qed.

Section Choice.

Variable Number_toString : number -> string.
Variable StringToNumber : string -> number.

Local Abbreviation streak_ge_5 :=
  (fun v : jsobj => js_ge Number_toString StringToNumber (get v "streak") 5%float).

(** Whenever step 2 of /get-nudge yields a vault, it is a row of the store's
    answer, and it is the first row with streak >= 5; or no row has such a
    streak and it is the first Credit Card row; or no row is a Credit Card
    row either and it is the first row. *)
Theorem pick_vault_priority (vaults : list jsobj) (vault : jsobj) :
  part_001.pick_vault Number_toString StringToNumber vaults = Some vault ->
  exists before after,
    vaults = (before ++ vault :: after)%list
    /\ ((streak_ge_5 vault = Some true
         /\ forall w, In w before -> streak_ge_5 w = Some false)
        \/ ((forall w, In w vaults -> streak_ge_5 w = Some false)
            /\ is_credit_card vault = true
            /\ forall w, In w before -> is_credit_card w = false)
        \/ ((forall w, In w vaults -> streak_ge_5 w = Some false)
            /\ (forall w, In w vaults -> is_credit_card w = false)
            /\ before = [])).
Proof.
  unfold part_001.pick_vault.
  destruct (find_row _ vaults) as [[v1|]|] eqn:E1; cbn [bind]; [| |discriminate].
  - intros H. assert (v1 = vault) by congruence. subst v1.
    destruct (find_row_some _ _ _ E1) as (before & after & Hv & Hp & Hb).
    exists before, after. split; [exact Hv|]. left. now split.
  - pose proof (find_row_none _ _ E1) as Hnone.
    destruct (find_row (fun v => Some (strict_eq_string (get v "vault_type") "Credit Card"))
                vaults) as [[v2|]|] eqn:E2; cbn [bind]; [| |discriminate].
    + intros H. assert (v2 = vault) by congruence. subst v2.
      destruct (find_row_some _ _ _ E2) as (before & after & Hv & Hp & Hb).
      exists before, after. split; [exact Hv|]. right. left.
      repeat split; trivial.
      * cbv beta in Hp. unfold is_credit_card. congruence.
      * intros w Hw. specialize (Hb w Hw). cbv beta in Hb.
        unfold is_credit_card. congruence.
    + pose proof (find_row_none _ _ E2) as Hcc.
      destruct vaults as [|x rest]; [discriminate|]. simpl.
      intros H. assert (x = vault) by congruence. subst x. exists [], rest. split; [reflexivity|].
      right. right. repeat split; trivial.
      intros w Hw. specialize (Hcc w Hw). cbv beta in Hcc.
      unfold is_credit_card. congruence.
Qed.

(** The statuses of the record-based /get-nudge: 400 exactly when user_id is
    missing or falsy, and then whatever the store would answer; otherwise 500
    or 200, and a 200 always carries a nudge string. *)
Theorem get_nudge_statuses (req : jsobj) (supabase : store) :
  let r := part_001.get_nudge Number_toString StringToNumber req supabase in
  (status r = 400 <-> ToBoolean (get req "user_id") = false)
  /\ (ToBoolean (get req "user_id") = false ->
      r = {| status := 400; body := error "Missing user_id." |})
  /\ (status r = 400 \/ status r = 500
      \/ exists nudge, r = {| status := 200; body := Json [("nudge", JStr nudge)] |}).
Proof.
  unfold part_001.get_nudge.
  destruct (ToBoolean (get req "user_id")); cbn [negb].
  - destruct (supabase _) as [|[[|v rest]|] err]; [|destruct (ToBoolean err)..];
      try destruct (part_001.nudge_for _ _ _);
      (split; [split; discriminate|]); (split; [discriminate|]); eauto.
  - repeat split; eauto.
Qed.

End Choice.

Lemma pick_vault_priority_witness :
  exists before after,
    three_vaults = (before ++ nth 1 three_vaults [] :: after)%list
    /\ ((forall w, In w before -> get w "streak" = JNum 2%float) \/ before = []).
Proof.
  destruct (pick_vault_priority Number_toString_integer StringToNumber_integer
              three_vaults (nth 1 three_vaults []) eq_refl)
    as (before & after & Hsplit & Hcase).
  exists before, after. split; [exact Hsplit|].
  destruct Hcase as [[_ Hb]|[[Hnone _]|[_ [_ Hnil]]]].
  - left. intros w Hw. specialize (Hb w Hw).
    assert (Hin : In w three_vaults) by (rewrite Hsplit; apply in_or_app; now left).
    destruct Hin as [<-|[<-|[<-|[]]]]; [reflexivity|discriminate Hb|discriminate Hb].
  - specialize (Hnone (nth 1 three_vaults []) (or_intror (or_introl eq_refl))).
    discriminate Hnone.
  - now right.
Defined.

(** ** A target amount of zero *)

(** A positive Number divided by zero is Infinity. *)
Lemma div_positive_by_zero (b : number) :
  lt 0%float b = true -> (b / 0)%float = PrimFloat.infinity.
Proof.
  unfold lt, IsLessThan. rewrite FloatAxioms.compare_spec. intros Hpos.
  rewrite <- (SF2Prim_Prim2SF (b / 0)), FloatAxioms.div_spec.
  change (Prim2SF 0%float) with (S754_zero false) in *.
  destruct (Prim2SF b) as [s|s| |s m e]; simpl in Hpos; try discriminate Hpos;
    destruct s; solve [discriminate Hpos | reflexivity].
Qed.

Section ZeroTarget.

Variable Number_toString : number -> string.
Variable StringToNumber : string -> number.

Local Abbreviation ToString' := (ToString Number_toString).
Local Abbreviation ToNumber' := (ToNumber Number_toString StringToNumber).

(** The record-based nudge has no guard for a target amount of 0 (the Number
    that 0, null and false convert to).  With a balance of 0 the progress is
    NaN and no rule on the progress applies: the nudge is the streak
    celebration or the generic growth message, never the kickstart.  With a
    positive balance the progress is Infinity: below a streak of 5 the nudge
    is the near-completion message, with the text of -Infinity as the
    percentage left. *)
Theorem nudge_for_zero_target
    (vaults : list jsobj) (vault : jsobj) (vt s : string) (sn b : number) :
  part_001.pick_vault Number_toString StringToNumber vaults = Some vault ->
  ToNumber' (default_to (JNum 1%float) (get vault "target_amount")) = Some 0%float ->
  ToNumber' (default_to (JNum 0%float) (get vault "current_balance")) = Some b ->
  ToString' (default_to (JStr "Vault") (get vault "vault_type")) = Some vt ->
  ToString' (default_to (JNum 0%float) (get vault "streak")) = Some s ->
  ToNumber' (default_to (JNum 0%float) (get vault "streak")) = Some sn ->
  (b = 0%float ->
   part_001.nudge_for Number_toString StringToNumber vaults
   = Some (record_message (if ge sn 5%float then StreakCelebration else GenericGrowth)
             (record_emoji vt) vt s (Number_toString PrimFloat.nan)))
  /\ (lt 0%float b = true ->
      part_001.nudge_for Number_toString StringToNumber vaults
      = Some (record_message (if ge sn 5%float then StreakCelebration else NearCompletion)
                (record_emoji vt) vt s (Number_toString PrimFloat.neg_infinity))).
Proof.
  intros Hpick Ht Hb Hvt Hs Hsn.
  assert (Hnudge : forall progress,
             Math_round (b / 0 * 100)%float = progress ->
             part_001.nudge_for Number_toString StringToNumber vaults
             = Some (record_message
                       (threshold_rule progress sn
                          (strict_eq_string (default_to (JStr "Vault") (get vault "vault_type"))
                             "Credit Card"))
                       (record_emoji vt) vt s (Number_toString (100 - progress)%float))).
  { intros progress <-.
    unfold part_001.nudge_for, part_001.progress_of, part_001.emoji_of.
    rewrite Hpick. cbn [bind]. rewrite Hb, Ht. cbn [bind]. rewrite Hvt. cbn [bind].
    now apply record_nudge_text_rule. }
  split.
  - intros ->. rewrite (Hnudge PrimFloat.nan) by reflexivity.
    unfold threshold_rule.
    change (lt PrimFloat.nan 15%float) with false.
    change (ge PrimFloat.nan 90%float) with false.
    change (ge PrimFloat.nan 50%float) with false.
    rewrite andb_false_r. now destruct (ge sn 5%float).
  - intros Hpos. rewrite (Hnudge PrimFloat.infinity).
    + unfold threshold_rule.
      change (lt PrimFloat.infinity 15%float) with false.
      change (ge PrimFloat.infinity 90%float) with true.
      now destruct (ge sn 5%float).
    + now rewrite (div_positive_by_zero b Hpos).
Qed.

End ZeroTarget.

Lemma nudge_for_zero_target_witness :
  part_001.nudge_for Number_toString_integer StringToNumber_integer
    [ [("vault_type", JStr "Car"); ("streak", JNum 1%float);
       ("current_balance", JNum 40%float); ("target_amount", JNum 0%float)] ]
  = Some "🎯 You're -Infinity% away from finishing your 🚗 Car vault. Almost there!".
Proof.
  apply (proj2 (nudge_for_zero_target Number_toString_integer StringToNumber_integer
                  [ [("vault_type", JStr "Car"); ("streak", JNum 1%float);
                     ("current_balance", JNum 40%float);
                     ("target_amount", JNum 0%float)] ]
                  [("vault_type", JStr "Car"); ("streak", JNum 1%float);
                   ("current_balance", JNum 40%float); ("target_amount", JNum 0%float)]
                  "Car" "1" 1%float 40%float
                  eq_refl eq_refl eq_refl eq_refl eq_refl eq_refl)).
  reflexivity.
Defined.

(** ** The errors of /v1/coach/nudge *)

Section NudgeErrors.

Variable Number_toString : number -> string.
Variable StringToNumber : string -> number.

Local Abbreviation ToString' := (ToString Number_toString).
Local Abbreviation ToNumber' := (ToNumber Number_toString StringToNumber).
Local Abbreviation coach_nudge' := (part_002_a.coach_nudge Number_toString StringToNumber).

(** /v1/coach/nudge answers 500 exactly when a conversion it performs throws:
    that of vault_type, that of progress, or that of streak, which is
    converted only when progress is not below 15.  So a progress below 15
    gets the kickstart message whatever streak holds. *)
Theorem coach_nudge_500_exactly (req : jsobj) :
  (status (coach_nudge' req) = 500 <->
   ToString' (get req "vault_type") = None
   \/ ToNumber' (get req "progress") = None
   \/ exists p, ToNumber' (get req "progress") = Some p
                /\ lt p 15%float = false
                /\ ToNumber' (get req "streak") = None)
  /\ forall vt p,
       ToString' (get req "vault_type") = Some vt ->
       ToNumber' (get req "progress") = Some p ->
       lt p 15%float = true ->
       coach_nudge' req
       = {| status := 200;
            body := Json [("nudge",
                           JStr ("Kickstart your " ++ explicit_emoji vt ++ " " ++ vt
                                 ++ " vault — even $1 builds momentum."))] |}.
Proof.
  unfold part_002_a.coach_nudge, part_002_a.nudge_text, js_lt, js_ge, explicit_emoji.
  destruct (ToString' (get req "vault_type")) as [vt|] eqn:Evt; cbn [bind];
    [|split; [split; auto|discriminate]].
  destruct (ToNumber' (get req "progress")) as [p|] eqn:Ep; cbn [bind option_map];
    [|split; [split; auto|discriminate]].
  destruct (lt p 15%float) eqn:Elt.
  - split; [split; [discriminate|]|].
    + intros [H|[H|(q & Hq & Hlt & _)]]; try discriminate. congruence.
    + intros vt' p' Hvt Hp _. assert (vt' = vt) by congruence. subst vt'. reflexivity.
  - split; [|intros vt' p' _ Hp Hlt; congruence].
    destruct (ToNumber' (get req "streak")) as [sn|] eqn:Esn; cbn [bind option_map].
    + destruct (ToString_of_ToNumber Number_toString StringToNumber (get req "streak"))
        as [s Es]; [congruence|].
      rewrite Es. cbn [bind].
      split.
      * intros H500. exfalso. revert H500.
        destruct (ge sn 5%float); [discriminate|].
        destruct (ge p 90%float); [discriminate|].
        destruct (strict_eq_string _ _); [destruct (ge p 50%float)|]; discriminate.
      * intros [H|[H|(q & Hq & _ & Hs)]]; discriminate.
    + split; [|reflexivity]. intros _. right. right. exists p. auto.
Qed.

(** A vault_type that is a string, no key of the emoji map and no property
    name of Object.prototype gets the default emoji of either mode, and the
    explicit-field endpoint answers 200 with it.  A property name of
    Object.prototype (constructor, toString, ...) gets instead the text of
    the inherited property. *)
Theorem unknown_vault_type_emoji (req : jsobj) (key s : string) (sn p : number) :
  get req "vault_type" = JStr key ->
  ToString' (get req "streak") = Some s ->
  ToNumber' (get req "streak") = Some sn ->
  ToNumber' (get req "progress") = Some p ->
  (assoc part_002_a.emojiMap key = None ->
   assoc Object_prototype key = None ->
   coach_nudge' req
   = {| status := 200;
        body := Json [("nudge",
                       JStr (explicit_message (threshold_rule p sn false) "🏦" key s
                               (Number_toString (100 - p)%float)))] |})
  /\ (assoc part_001.emojiMap key = None -> assoc Object_prototype key = None ->
      part_001.emoji_of Number_toString (JStr key) = Some "📦")
  /\ (forall image, assoc Object_prototype key = Some image ->
      explicit_emoji key = image
      /\ part_001.emoji_of Number_toString (JStr key) = Some image).
Proof.
  intros Hkey Hs Hsn Hp. split; [|split].
  - intros Hown Hproto. unfold part_002_a.coach_nudge.
    rewrite (explicit_nudge_text_rule Number_toString StringToNumber
               (get req "vault_type") _ _ key _ _ _ ltac:(now rewrite Hkey) Hs Hsn Hp).
    rewrite Hkey. unfold explicit_emoji, literal_get. rewrite Hown, Hproto.
    cbn [strict_eq_string].
    destruct (String.eqb key "Credit Card") eqn:E; [|reflexivity].
    apply String.eqb_eq in E. subst key. discriminate Hown.
  - intros Hown Hproto. unfold part_001.emoji_of, literal_get. cbn [ToString bind].
    now rewrite Hown, Hproto.
  - intros image Himage. unfold explicit_emoji, part_001.emoji_of, literal_get.
    cbn [ToString bind].
    assert (Hnone : assoc part_002_a.emojiMap key = None /\ assoc part_001.emojiMap key = None).
    { revert Himage. unfold Object_prototype. cbn [assoc].
      repeat match goal with
             | |- context [String.eqb ?a key] =>
                 let E := fresh "E" in
                 destruct (String.eqb a key) eqn:E;
                 [apply String.eqb_eq in E; subst key; intros _; split; reflexivity|]
             end.
      cbv iota. discriminate. }
    destruct Hnone as [-> ->]. now rewrite Himage.
Qed.

End NudgeErrors.

Lemma coach_nudge_500_witness :
  part_002_a.coach_nudge Number_toString_integer StringToNumber_integer
    [("vault_type", JStr "Car"); ("progress", JNum 3%float);
     ("streak", JObj [("toString", JNull)])]
  = {| status := 200;
       body := Json [("nudge", JStr "Kickstart your 🚗 Car vault — even $1 builds momentum.")] |}.
Proof.
  apply (proj2 (coach_nudge_500_exactly Number_toString_integer StringToNumber_integer
                  [("vault_type", JStr "Car"); ("progress", JNum 3%float);
                   ("streak", JObj [("toString", JNull)])])
           "Car" 3%float eq_refl eq_refl eq_refl).
Defined.

Lemma unknown_vault_type_emoji_witness :
  part_002_a.coach_nudge Number_toString_integer StringToNumber_integer
    [("vault_type", JStr "Rent"); ("progress", JNum 40%float); ("streak", JNum 2%float)]
  = {| status := 200;
       body := Json [("nudge", JStr "Your 🏦 Rent vault is growing. Add a little today 🌱")] |}.
Proof.
  apply (proj1 (unknown_vault_type_emoji Number_toString_integer StringToNumber_integer
                  [("vault_type", JStr "Rent"); ("progress", JNum 40%float);
                   ("streak", JNum 2%float)]
                  "Rent" "2" 2%float 40%float eq_refl eq_refl eq_refl eq_refl)
           eq_refl eq_refl).
Defined.

(** ** The rolling history in closed form *)

(** Pushing a turn and keeping the last 3 keeps the last 2 turns of the
    history before the push. *)
Lemma user_push_closed_form (h : list turn) (u : turn) :
  (if (3 <? List.length (h ++ [u]))%nat then slice_last 3 (h ++ [u]) else (h ++ [u])%list)
  = (slice_last 2 h ++ [u])%list.
Proof.
  unfold slice_last. rewrite length_app. cbn [List.length].
  destruct (3 <? List.length h + 1)%nat eqn:E.
  - apply Nat.ltb_lt in E. rewrite skipn_app.
    replace (List.length h + 1 - 3)%nat with (List.length h - 2)%nat by lia.
    replace (List.length h - 2 - List.length h)%nat with 0%nat by lia. reflexivity.
  - apply Nat.ltb_ge in E.
    replace (List.length h - 2)%nat with 0%nat by lia. reflexivity.
Qed.

Lemma slice_last_le {A : Type} (n : nat) (a : list A) :
  (List.length (slice_last n a) <= n)%nat.
Proof. rewrite slice_last_length. lia. Qed.

(** One request in closed form. *)
Lemma ask_history_step (req : jsobj) (up : upstream) (history : list turn) :
  ToBoolean (or_else (get req "question") (get req "message")) = true ->
  let u := {| role := user;
              content := or_else (get req "question") (get req "message") |} in
  let kept := slice_last 2 history in
  map messages (upstream_calls (fst (part_004.ask req up history)))
  = [ ({| role := system; content := JStr coach_prompt |} :: kept ++ [u])%list ]
  /\ snd (part_004.ask req up history)
     = match up with
       | Resolves c =>
           (kept ++ [u; {| role := assistant;
                           content := JStr (trimmed_content_or "No reply generated." c) |}])%list
       | Rejects => (kept ++ [u])%list
       end.
Proof.
  intros Hq u kept. unfold part_004.ask. rewrite Hq. cbn [negb]. cbv zeta.
  fold u. rewrite (user_push_closed_form history u). fold kept.
  destruct up as [|c]; cbn [fst snd upstream_calls respond map messages]; split; trivial.
  set (a := {| role := assistant; content := _ |}).
  pose proof (assistant_push_window (kept ++ [u])%list a) as Hd. cbv zeta in Hd.
  rewrite Hd.
  - now rewrite <- app_assoc.
  - rewrite length_app. cbn [List.length]. pose proof (slice_last_le 2 history) as Hk.
    fold kept in Hk. lia.
Qed.

(** What one /ask of part_004 with a message does to the history: only the
    last 2 stored turns survive, the user turn is appended before the call,
    and the reply after it; when the call fails the user turn stays, without
    a reply.  The call carries the system prompt, the 2 surviving turns and
    the new user turn, in this order. *)
Theorem ask_history_closed_form (req : jsobj) (up : upstream) (history : list turn) :
  ToBoolean (or_else (get req "question") (get req "message")) = true ->
  let u := {| role := user;
              content := or_else (get req "question") (get req "message") |} in
  let kept := slice_last 2 history in
  map messages (upstream_calls (fst (part_004.ask req up history)))
  = [ ({| role := system; content := JStr coach_prompt |} :: kept ++ [u])%list ]
  /\ snd (part_004.ask req up history)
     = match up with
       | Resolves c =>
           (kept ++ [u; {| role := assistant;
                           content := JStr (trimmed_content_or "No reply generated." c) |}])%list
       | Rejects => (kept ++ [u])%list
       end.
Proof. exact (ask_history_step req up history). Qed.


(** The mode of the second server of part_003 selects the system prompt and
    has no other effect: on every request the server leaves the history that
    part_004 leaves, sends the response that part_004 sends, and its call
    carries the same turns after the system turn.  Besides the prompt its
    call differs from that of part_004 by the temperature 0.7 alone, which
    part_004 does not set. *)
Theorem mode_changes_only_the_prompt (req : jsobj) (up : upstream) (history : list turn) :
  snd (part_003_b.ask req up history) = snd (part_004.ask req up history)
  /\ sent (fst (part_003_b.ask req up history)) = sent (fst (part_004.ask req up history))
  /\ map (fun call => (model call, tl (messages call), stream call))
       (upstream_calls (fst (part_003_b.ask req up history)))
     = map (fun call => (model call, tl (messages call), stream call))
         (upstream_calls (fst (part_004.ask req up history)))
  /\ (forall call, In call (upstream_calls (fst (part_004.ask req up history))) ->
        temperature call = None)
  /\ forall call, In call (upstream_calls (fst (part_003_b.ask req up history))) ->
       temperature call = Some temperature_0_7
       /\ hd_error (messages call)
          = Some {| role := system;
                    content := JStr (if strict_eq_string
                                          (or_else (get req "mode") (JStr "Normal")) "Strict"
                                     then strict_prompt
                                     else if strict_eq_string
                                               (or_else (get req "mode") (JStr "Normal"))
                                               "Friendly"
                                          then friendly_prompt
                                          else coach_prompt) |}.
Proof.
  unfold part_003_b.ask, part_004.ask.
  destruct (negb (ToBoolean _)); [repeat apply conj; trivial; intros call []|].
  destruct up as [|c]; cbv zeta;
    cbn [fst snd sent upstream_calls respond map messages tl model stream];
    repeat apply conj; trivial; intros call [<-|[]]; cbn [messages hd_error temperature];
    trivial; split; trivial; now repeat destruct (strict_eq_string _ _).
Qed.

(** ** The roles of the turns sent *)

Lemma filter_skipn_nil {A : Type} (f : A -> bool) (n : nat) (l : list A) :
  filter f l = [] -> filter f (skipn n l) = [].
Proof.
  revert n. induction l as [|x l IH]; intros [|n] H; simpl in *; trivial.
  destruct (f x); [discriminate|]. now apply IH.
Qed.

Lemma system_turns_app (a b : list turn) :
  system_turns (a ++ b) = (system_turns a ++ system_turns b)%list.
Proof. unfold system_turns. now rewrite filter_app, map_app. Qed.

Lemma system_turns_cons (c : jsval) (l : list turn) :
  system_turns ({| role := system; content := c |} :: l) = c :: system_turns l.
Proof. reflexivity. Qed.

Lemma system_turns_slice (n : nat) (h : list turn) :
  system_turns h = [] -> system_turns (slice_last n h) = [].
Proof.
  unfold system_turns, slice_last. intros H.
  apply map_eq_nil in H. now rewrite filter_skipn_nil.
Qed.

(** One request keeps the history free of system turns, and its call, if it
    makes one, carries exactly one system turn (the coach prompt, first) and
    ends with the user turn of the request. *)
Lemma ask_roles (req : jsobj) (up : upstream) (history : list turn) :
  system_turns history = [] ->
  system_turns (snd (part_004.ask req up history)) = []
  /\ Forall (fun call =>
               system_turns (messages call) = [JStr coach_prompt]
               /\ last (messages call) {| role := system; content := JNull |}
                  = {| role := user;
                       content := or_else (get req "question") (get req "message") |})
       (upstream_calls (fst (part_004.ask req up history))).
Proof.
  intros Hh.
  destruct (ToBoolean (or_else (get req "question") (get req "message"))) eqn:Hq.
  - destruct (ask_history_step req up history Hq) as [Hcalls Hhist].
    cbv zeta in Hcalls, Hhist. split.
    + rewrite Hhist. destruct up; rewrite system_turns_app, system_turns_slice by exact Hh;
        reflexivity.
    + destruct (upstream_calls _) as [|call [|c2 rest]]; try discriminate Hcalls.
      injection Hcalls as Hm. constructor; [|constructor]. rewrite Hm. split.
      * rewrite system_turns_cons, system_turns_app, system_turns_slice by exact Hh.
        reflexivity.
      * rewrite app_comm_cons. apply last_last.
  - unfold part_004.ask. rewrite Hq. cbn. split; [exact Hh|constructor].
Qed.

(** From the empty history of a fresh process, every call of every request
    carries exactly one system turn, the coach prompt, and ends with the user
    turn of the request that made it; the stored history never holds a system
    turn. *)
Theorem served_calls_roles (requests : list (jsobj * upstream)) :
  let '(outcomes, history) := serve part_004.ask requests [] in
  system_turns history = []
  /\ Forall (fun o =>
               Forall (fun call =>
                         system_turns (messages call) = [JStr coach_prompt]
                         /\ exists q, last (messages call) {| role := system; content := JNull |}
                                      = {| role := user; content := q |})
                 (upstream_calls o))
       outcomes.
Proof.
  assert (H : forall h, system_turns h = [] ->
            let '(outcomes, history) := serve part_004.ask requests h in
            system_turns history = []
            /\ Forall (fun o =>
                 Forall (fun call =>
                           system_turns (messages call) = [JStr coach_prompt]
                           /\ exists q, last (messages call) {| role := system; content := JNull |}
                                        = {| role := user; content := q |})
                   (upstream_calls o))
               outcomes).
  { induction requests as [|[req up] rest IH]; intros h Hh; simpl.
    - split; [exact Hh|constructor].
    - pose proof (ask_roles req up h Hh) as [Hh' Hcalls].
      destruct (part_004.ask req up h) as [o h']. cbn [fst snd] in *.
      specialize (IH h' Hh'). destruct (serve part_004.ask rest h') as [os h''].
      destruct IH as [IH1 IH2]. split; [exact IH1|]. constructor; [|exact IH2].
      eapply Forall_impl; [|exact Hcalls]. intros call [H1 H2]. split; eauto. }
  apply (H []). reflexivity.
Qed.

Lemma ask_history_closed_form_witness :
  snd (part_004.ask [("question", JStr "q3")] Rejects
         [ {| role := user; content := JStr "q1" |};
           {| role := assistant; content := JStr "r1" |};
           {| role := user; content := JStr "q2" |};
           {| role := assistant; content := JStr "r2" |} ])
  = [ {| role := user; content := JStr "q2" |};
      {| role := assistant; content := JStr "r2" |};
      {| role := user; content := JStr "q3" |} ].
Proof.
  apply (proj2 (ask_history_closed_form [("question", JStr "q3")] Rejects
                  [ {| role := user; content := JStr "q1" |};
                    {| role := assistant; content := JStr "r1" |};
                    {| role := user; content := JStr "q2" |};
                    {| role := assistant; content := JStr "r2" |} ] eq_refl)).
Defined.

(** ** The streaming endpoint *)



Section Streaming.

Variable Number_toString : number -> string.

Local Abbreviation ToString' := (ToString Number_toString).

(** /ask-stream builds the turns after the system turn as /ask does, but it
    synthesizes no system prompt: the system turn holds the systemPrompt
    field as passed, and the empty string when the field is absent, where
    /ask sends the coach template for an absent or falsy field. *)
Theorem ask_stream_has_no_default_prompt
    (req : jsobj) (up : upstream) (ups : upstream_stream) (m : string) :
  ToBoolean (get req "question") = true ->
  ToString' (default_to (JStr "") (get req "memory")) = Some m ->
  exists rest,
    map messages (snd (part_000.ask_stream Number_toString req ups))
    = [ {| role := system; content := default_to (JStr "") (get req "systemPrompt") |}
        :: rest ]
    /\ map messages (upstream_calls (part_000.ask Number_toString req up))
       = [ {| role := system;
              content := or_else (get req "systemPrompt") (JStr coach_prompt) |} :: rest ]
    /\ map stream (snd (part_000.ask_stream Number_toString req ups)) = [true]
    /\ last rest {| role := system; content := JNull |}
       = {| role := user; content := get req "question" |}.
Proof.
  intros Hq Hm.
  unfold part_000.ask_stream, part_000.ask, part_000.compose.
  rewrite Hq, (memory_note_cases _ _ _ Hm). cbn [negb bind].
  eexists. split; [|split; [|split]].
  - destruct ups as [|deltas|[|d deltas]]; reflexivity.
  - destruct up; reflexivity.
  - destruct ups as [|deltas|[|d deltas]]; reflexivity.
  - apply last_last.
Qed.



End Streaming.

Lemma ask_stream_has_no_default_prompt_witness :
  exists rest,
    map messages (snd (part_000.ask_stream Number_toString_integer
                         [("question", JStr "How do I start?")] StreamRejects))
    = [ {| role := system; content := JStr "" |} :: rest ]
    /\ map messages (upstream_calls (part_000.ask Number_toString_integer
                                       [("question", JStr "How do I start?")] Rejects))
       = [ {| role := system; content := JStr coach_prompt |} :: rest ].
Proof.
  destruct (ask_stream_has_no_default_prompt Number_toString_integer
              [("question", JStr "How do I start?")] Rejects StreamRejects ""
              eq_refl eq_refl) as (rest & Hs & Ha & _).
  exists rest. split; [exact Hs|exact Ha].
Defined.


(** ** The reply is never empty *)

Lemma reply_text_nonempty (trimmed : bool) (fallback : string) (content : option string) :
  fallback <> "" -> reply_text trimmed fallback content <> "".
Proof.
  intros Hf. unfold reply_text. destruct content as [s|]; [|exact Hf].
  destruct (String.eqb _ "") eqn:E; [exact Hf|]. now apply String.eqb_neq in E.
Qed.

Ltac reply_cases :=
  repeat match goal with
         | |- context [negb (ToBoolean ?v)] => destruct (negb (ToBoolean v))
         | |- context [match ?x with Rejects => _ | Resolves _ => _ end] => destruct x
         end;
  cbn [fst reply_of sent respond status body get String.eqb Ascii.eqb Bool.eqb];
  intros v Hv; try discriminate Hv.

(** Whatever the completion API returns, a 200 response of an ask handler
    carries a reply that is a non-empty string: a missing, null or empty
    content (and, where the handler trims, a content of whitespace) is
    replaced by the fallback. *)
Theorem reply_never_empty
    (Number_toString : number -> string) (StringToNumber : string -> number)
    (req : jsobj) (up : upstream) (supabase : store) (history : list turn) :
  let nonempty o := forall v, reply_of o = Some v -> exists s, v = JStr s /\ s <> "" in
  nonempty (index_js.ask req up)
  /\ nonempty (part_003_a.ask req up)
  /\ nonempty (part_000.ask Number_toString req up)
  /\ nonempty (part_001.ask Number_toString req up)
  /\ nonempty (part_002_a.coach_ask Number_toString StringToNumber req supabase up)
  /\ nonempty (fst (part_004.ask req up history))
  /\ nonempty (fst (part_003_b.ask req up history)).
Proof.
  assert (Hplain : forall fb c, fb <> "" ->
            forall v, Some (JStr (content_or fb c)) = Some v -> exists s, v = JStr s /\ s <> "").
  { intros fb c Hfb v Hv. exists (content_or fb c). split; [congruence|].
    now apply (reply_text_nonempty false). }
  assert (Htrim : forall fb c, fb <> "" ->
            forall v, Some (JStr (trimmed_content_or fb c)) = Some v ->
                      exists s, v = JStr s /\ s <> "").
  { intros fb c Hfb v Hv. exists (trimmed_content_or fb c). split; [congruence|].
    now apply (reply_text_nonempty true). }
  cbv zeta. repeat apply conj.
  - unfold index_js.ask. reply_cases. now apply (Hplain "No reply generated." completion).
  - unfold part_003_a.ask. reply_cases. now apply (Hplain "No reply generated." completion).
  - unfold part_000.ask. destruct (part_000.compose _ _ _ _);
      reply_cases. now apply (Htrim "No reply generated." completion).
  - unfold part_001.ask. destruct (bind _ _); reply_cases.
    now apply (Htrim "No reply generated." completion).
  - unfold part_002_a.coach_ask.
    destruct (part_002_a.prepare _ _ _ _ _ _) as [[messages finalMode]|]; reply_cases.
    now apply (Hplain part_002_a.rephrase completion).
  - unfold part_004.ask. reply_cases. now apply (Htrim "No reply generated." completion).
  - unfold part_003_b.ask. reply_cases. now apply (Htrim "No reply generated." completion).
Qed.

(** ** Failures of /v1/coach/ask before the call *)

Section CoachAsk.

Variable Number_toString : number -> string.
Variable StringToNumber : string -> number.

Local Abbreviation coach_ask' := (part_002_a.coach_ask Number_toString StringToNumber).

(** A question that is truthy but no string (a number, true, an array, an
    object) and a store that throws are both answered 500 by /v1/coach/ask,
    and the completion API is not called. *)
Theorem coach_ask_fails_before_the_call (req : jsobj) (supabase : store) (up : upstream) :
  ToBoolean (get req "question") = true ->
  (forall q, get req "question" <> JStr q)
  \/ (ToBoolean (get req "user_id") = true
      /\ supabase {| columns := "vault_type, current_balance, target_amount, streak";
                     user_id_eq := get req "user_id"; archived_eq := false |}
         = StoreRejects) ->
  coach_ask' req supabase up = respond 500 (error "AI failed to respond.") [].
Proof.
  intros Hq Hfail. unfold part_002_a.coach_ask, part_002_a.prepare. rewrite Hq. cbn [negb].
  destruct Hfail as [Hnot|[Hid Hstore]].
  - destruct (part_002_a.getVaultContext _ _ _ _); cbn [bind]; [|reflexivity].
    destruct (get req "question") as [| | | |q| |]; try reflexivity. now elim (Hnot q).
  - unfold part_002_a.getVaultContext. now rewrite Hid, Hstore.
Qed.

(** /v1/coach/ask never reads the error of the store's answer: it handles
    every request as if the store had reported none, so a failed query with
    no rows reads as a user without vaults.  The record-based /get-nudge
    answers 500 to the same error, whatever rows come with it. *)
Theorem coach_ask_ignores_store_error (req : jsobj) (supabase : store) (up : upstream) :
  coach_ask' req supabase up = coach_ask' req (without_error supabase) up
  /\ (ToBoolean (get req "user_id") = true ->
      forall data err,
        supabase {| columns := "*"; user_id_eq := get req "user_id"; archived_eq := false |}
        = StoreReplies data err ->
        ToBoolean err = true ->
        part_001.get_nudge Number_toString StringToNumber req supabase
        = {| status := 500; body := error "Failed to fetch vaults." |}).
Proof.
  split.
  - unfold part_002_a.coach_ask, part_002_a.prepare, part_002_a.getVaultContext, without_error.
    destruct (negb (ToBoolean (get req "question"))); [reflexivity|].
    destruct (negb (ToBoolean (get req "user_id"))); [reflexivity|].
    now destruct (supabase _) as [|[[|v rest]|] err].
  - intros Hid data err Hq Herr. unfold part_001.get_nudge. now rewrite Hid, Hq, Herr.
Qed.

End CoachAsk.

Lemma coach_ask_fails_before_the_call_witness :
  part_002_a.coach_ask Number_toString_integer StringToNumber_integer
    [("question", JNum 5%float)] (fun _ => StoreRejects)
    (Resolves (completion_with "Keep going!"))
  = respond 500 (error "AI failed to respond.") [].
Proof.
  apply (coach_ask_fails_before_the_call Number_toString_integer StringToNumber_integer
           [("question", JNum 5%float)] (fun _ => StoreRejects)
           (Resolves (completion_with "Keep going!")) eq_refl).
  left. discriminate.
Defined.

Lemma coach_ask_ignores_store_error_witness :
  part_001.get_nudge Number_toString_integer StringToNumber_integer
    [("user_id", JStr "u1")]
    (fun _ => StoreReplies (Some three_vaults) (JObj [("message", JStr "timeout")]))
  = {| status := 500; body := error "Failed to fetch vaults." |}.
Proof.
  apply (proj2 (coach_ask_ignores_store_error Number_toString_integer StringToNumber_integer
                  [("user_id", JStr "u1")]
                  (fun _ => StoreReplies (Some three_vaults) (JObj [("message", JStr "timeout")]))
                  Rejects)
           eq_refl (Some three_vaults) (JObj [("message", JStr "timeout")]) eq_refl eq_refl).
Defined.

(** ** The message of the placeholder /get-nudge *)

Lemma element_at_range (a : list string) (k : Z) (i : number) :
  part_002_b.element_at a k i = JUndefined
  \/ exists s, part_002_b.element_at a k i = JStr s /\ In s a.
Proof.
  revert k. induction a as [|x a IH]; intros k; simpl; [now left|].
  destruct (PrimFloat.eqb _ i); [right; eauto|].
  destruct (IH (k + 1)%Z) as [H|(s & H & Hin)]; [now left|right; eauto].
Qed.

(** Whatever Math.random returns, the /get-nudge of part_002 answers a request
    with a user_id with 200, and its message, when defined, is one of the five
    fixed messages; without a user_id it answers 400. *)
Theorem daily_nudge_message (req : jsobj) (random : number) :
  (ToBoolean (get req "user_id") = true ->
   exists message,
     part_002_b.get_nudge req random
     = {| status := 200; body := Json [("message", message)] |}
     /\ (message = JUndefined
         \/ exists s, message = JStr s /\ In s part_002_b.dailyNudges))
  /\ (ToBoolean (get req "user_id") = false ->
      part_002_b.get_nudge req random
      = {| status := 400; body := error "Missing user_id" |}).
Proof.
  unfold part_002_b.get_nudge. split; intros ->; cbn [negb]; [|reflexivity].
  eexists. split; [reflexivity|]. apply element_at_range.
Qed.

Lemma daily_nudge_message_witness :
  exists message,
    part_002_b.get_nudge [("user_id", JStr "u1")] 0.75%float
    = {| status := 200; body := Json [("message", message)] |}
    /\ (message = JUndefined
        \/ exists s, message = JStr s /\ In s part_002_b.dailyNudges).
Proof.
  apply (proj1 (daily_nudge_message [("user_id", JStr "u1")] 0.75%float)). reflexivity.
Defined.

(** ** Modes and personalities *)

Lemma prefix_app (kw rest : string) : String.prefix kw (kw ++ rest) = true.
Proof.
  induction kw as [|c kw IH]; simpl; [now destruct rest|].
  destruct (ascii_dec c c); [exact IH|congruence].
Qed.

Lemma includes_prefix (s kw : string) : String.prefix kw s = true -> includes s kw = true.
Proof. intros H. destruct s; cbn [includes]; now rewrite H. Qed.

Lemma includes_app_r (a s kw : string) : includes s kw = true -> includes (a ++ s) kw = true.
Proof.
  intros H. induction a as [|c a IH]; simpl; [exact H|]. rewrite IH. apply orb_true_r.
Qed.

Lemma append_associative (a b c : string) : (a ++ b) ++ c = a ++ b ++ c.
Proof. induction a as [|x a IH]; simpl; [reflexivity|now rewrite IH]. Qed.

(** A text that holds [kw] between two others includes it. *)
Lemma includes_middle (a kw c s : string) : s = a ++ kw ++ c -> includes s kw = true.
Proof. intros ->. apply includes_app_r, includes_prefix, prefix_app. Qed.

Lemma lower_ascii_idempotent (c : ascii) : lower_ascii (lower_ascii c) = lower_ascii c.
Proof. destruct c as [[] [] [] [] [] [] [] []]; reflexivity. Qed.

Lemma toLowerCase_idempotent (s : string) : toLowerCase (toLowerCase s) = toLowerCase s.
Proof.
  induction s as [|c s IH]; simpl; [reflexivity|].
  now rewrite lower_ascii_idempotent, IH.
Qed.

Lemma tested_keywords_lowercase (keywords : list string) (mode kw : string) :
  In (keywords, mode) tested_keywords -> In kw keywords -> toLowerCase kw = kw.
Proof.
  intros Hset Hkw. unfold tested_keywords in Hset. simpl in Hset.
  destruct Hset as [H|[H|[H|[H|[]]]]]; inversion H; subst; simpl in Hkw;
    intuition (subst; reflexivity).
Qed.

Lemma first_match_some (table : keyword_table) (lower : string)
    (keywords : list string) (mode kw : string) :
  In (keywords, mode) table -> In kw keywords -> includes lower kw = true ->
  exists mode', first_match lower table = Some mode'.
Proof.
  intros Hset Hkw Hinc. induction table as [|[ks m] rest IH]; [destruct Hset|].
  cbn [first_match]. destruct (existsb (includes lower) ks) eqn:E; [eauto|].
  destruct Hset as [H|H]; [|now apply IH].
  inversion H; subst. exfalso.
  assert (existsb (includes lower) keywords = true)
    by (apply existsb_exists; eauto).
  congruence.
Qed.

(** The mode is resolved without regard to the case of the question, and a
    tested keyword that occurs in the question as written (in lower case)
    always overrides the requested mode. *)
Theorem detectAdaptiveMode_ignores_case (question : string) (requestedMode : jsval) :
  part_002_a.detectAdaptiveMode (toLowerCase question) requestedMode
  = part_002_a.detectAdaptiveMode question requestedMode
  /\ forall keywords mode kw,
       In (keywords, mode) tested_keywords -> In kw keywords ->
       includes question kw = true ->
       exists mode', first_match (toLowerCase question) tested_keywords = Some mode'
                     /\ part_002_a.detectAdaptiveMode question requestedMode = JStr mode'.
Proof.
  split.
  - unfold part_002_a.detectAdaptiveMode. now rewrite toLowerCase_idempotent.
  - intros keywords mode kw Hset Hkw Hinc.
    apply includes_toLowerCase in Hinc.
    rewrite (tested_keywords_lowercase _ _ _ Hset Hkw) in Hinc.
    destruct (first_match_some _ _ _ _ _ Hset Hkw Hinc) as [mode' E].
    exists mode'. split; [exact E|].
    rewrite detectAdaptiveMode_resolve. unfold resolve_mode. now rewrite E.
Qed.

Lemma detectAdaptiveMode_ignores_case_witness :
  exists mode',
    first_match (toLowerCase "Can you BOOST my plan?") tested_keywords = Some mode'
    /\ part_002_a.detectAdaptiveMode "Can you BOOST my plan?" (JStr "Soothing & Calm")
       = JStr mode'.
Proof.
  apply (proj2 (detectAdaptiveMode_ignores_case "Can you BOOST my plan?"
                  (JStr "Soothing & Calm"))
           ["strategy"; "optimize"; "plan"] "Expert Financial Advisor" "plan").
  - right. right. right. now left.
  - right. right. now left.
  - reflexivity.
Defined.

Section Personality.

Variable Number_toString : number -> string.

(** The modes [detectAdaptiveMode] can return: one of the four keyword modes,
    the requested mode when it is truthy, or the default. *)
Lemma detectAdaptiveMode_range (question : string) (requestedMode : jsval) :
  (exists keywords mode,
     In (keywords, mode) tested_keywords
     /\ part_002_a.detectAdaptiveMode question requestedMode = JStr mode)
  \/ (ToBoolean requestedMode = true
      /\ part_002_a.detectAdaptiveMode question requestedMode = requestedMode)
  \/ (ToBoolean requestedMode = false
      /\ part_002_a.detectAdaptiveMode question requestedMode = JStr "Warm & Friendly").
Proof.
  rewrite detectAdaptiveMode_resolve. unfold resolve_mode.
  destruct (first_match _ tested_keywords) as [mode|] eqn:E.
  - left. revert E. unfold tested_keywords. cbn [first_match].
    repeat (destruct (existsb _ _);
            [intros H; inversion H; subst; eexists; eexists; split;
             [|reflexivity]; simpl; tauto|]).
    discriminate.
  - right. unfold or_else. destruct (ToBoolean requestedMode); auto.
Qed.

(** When the requested mode is absent or falsy, or names one of the five
    personalities, the final mode names one of the five personalities for
    every question, and the system prompt states the mode and the rules of
    that personality. *)
Theorem final_mode_has_personality (question : string) (requestedMode : jsval)
    (vaultContext : string) :
  ToBoolean requestedMode = false
  \/ (exists m, requestedMode = JStr m /\ assoc part_002_a.personalities m <> None) ->
  exists mode rules systemPrompt,
    part_002_a.detectAdaptiveMode question requestedMode = JStr mode
    /\ assoc part_002_a.personalities mode = Some rules
    /\ part_002_a.buildSystemPrompt Number_toString (JStr mode) vaultContext
       = Some systemPrompt
    /\ includes systemPrompt
         ("Tone Mode: " ++ mode ++ nl ++ nl ++ "Personality Rules:" ++ nl ++ rules ++ nl)
       = true.
Proof.
  intros Hreq.
  assert (Hmode : exists mode rules,
             part_002_a.detectAdaptiveMode question requestedMode = JStr mode
             /\ assoc part_002_a.personalities mode = Some rules).
  { destruct (detectAdaptiveMode_range question requestedMode)
      as [(keywords & mode & Hin & ->)|[[Ht ->]|[_ ->]]].
    - exists mode. unfold tested_keywords in Hin. simpl in Hin.
      destruct Hin as [H|[H|[H|[H|[]]]]]; inversion H; subst; eexists; split; reflexivity.
    - destruct Hreq as [Hf|(m & -> & Hm)]; [congruence|].
      exists m. destruct (assoc part_002_a.personalities m) as [rules|]; [eauto|contradiction].
    - eexists. eexists. split; reflexivity. }
  destruct Hmode as (mode & rules & Hd & Hrules).
  exists mode, rules. eexists. split; [exact Hd|]. split; [exact Hrules|].
  unfold part_002_a.buildSystemPrompt, literal_get. cbn [ToString bind]. rewrite Hrules.
  split; [reflexivity|].
  apply (includes_middle
           (nl ++ "You are the AI Vault Coach for the DebtVault app." ++ nl
            ++ nl ++ "User Vault Status:" ++ nl ++ vaultContext ++ nl ++ nl)
           ("Tone Mode: " ++ mode ++ nl ++ nl ++ "Personality Rules:" ++ nl ++ rules ++ nl)
           (nl ++ "Rules:" ++ nl ++ "• Always give ONE actionable step." ++ nl
            ++ "• Always be encouraging." ++ nl
            ++ "• Keep responses short unless detail is required." ++ nl)).
  rewrite !append_associative. reflexivity.
Qed.

End Personality.

Lemma final_mode_has_personality_witness :
  exists mode rules systemPrompt,
    part_002_a.detectAdaptiveMode "How much should I save?" (JStr "Professional & Direct")
    = JStr mode
    /\ assoc part_002_a.personalities mode = Some rules
    /\ part_002_a.buildSystemPrompt Number_toString_integer (JStr mode) "User not logged in."
       = Some systemPrompt
    /\ includes systemPrompt
         ("Tone Mode: " ++ mode ++ nl ++ nl ++ "Personality Rules:" ++ nl ++ rules ++ nl)
       = true.
Proof.
  apply (final_mode_has_personality Number_toString_integer "How much should I save?"
           (JStr "Professional & Direct") "User not logged in.").
  right. exists "Professional & Direct". split; [reflexivity|discriminate].
Defined.

(** A requested mode that names no personality (Normal, Strict and Friendly,
    the modes of the older servers, among them) is kept as the final mode
    when no keyword matches, and the system prompt then gives the text
    undefined as the rules of the personality. *)
Theorem unknown_mode_undefined_rules
    (Number_toString : number -> string) (question m vaultContext : string) :
  m <> "" ->
  literal_get part_002_a.personalities m = None ->
  first_match (toLowerCase question) tested_keywords = None ->
  exists systemPrompt,
    part_002_a.detectAdaptiveMode question (JStr m) = JStr m
    /\ part_002_a.buildSystemPrompt Number_toString (JStr m) vaultContext = Some systemPrompt
    /\ includes systemPrompt
         ("Tone Mode: " ++ m ++ nl ++ nl ++ "Personality Rules:" ++ nl ++ "undefined" ++ nl)
       = true.
Proof.
  intros Hm Hnone Hkw. eexists. split; [|split].
  - rewrite detectAdaptiveMode_resolve. unfold resolve_mode, or_else. rewrite Hkw.
    cbn [ToBoolean]. apply String.eqb_neq in Hm. now rewrite Hm.
  - unfold part_002_a.buildSystemPrompt. cbn [ToString bind]. rewrite Hnone. reflexivity.
  - apply (includes_middle
             (nl ++ "You are the AI Vault Coach for the DebtVault app." ++ nl
              ++ nl ++ "User Vault Status:" ++ nl ++ vaultContext ++ nl ++ nl)
             ("Tone Mode: " ++ m ++ nl ++ nl ++ "Personality Rules:" ++ nl ++ "undefined" ++ nl)
             (nl ++ "Rules:" ++ nl ++ "• Always give ONE actionable step." ++ nl
              ++ "• Always be encouraging." ++ nl
              ++ "• Keep responses short unless detail is required." ++ nl)).
    rewrite !append_associative. reflexivity.
Qed.

Lemma unknown_mode_undefined_rules_witness :
  exists systemPrompt,
    part_002_a.detectAdaptiveMode "How much should I save?" (JStr "Normal") = JStr "Normal"
    /\ part_002_a.buildSystemPrompt Number_toString_integer (JStr "Normal")
         "User not logged in." = Some systemPrompt
    /\ includes systemPrompt
         ("Tone Mode: Normal" ++ nl ++ nl ++ "Personality Rules:" ++ nl ++ "undefined" ++ nl)
       = true.
Proof.
  apply (unknown_mode_undefined_rules Number_toString_integer "How much should I save?"
           "Normal" "User not logged in."); [discriminate|reflexivity|reflexivity].
Defined.

(** ** Versions of /ask that agree *)

(** The /ask of index.js reads the question first and the legacy message
    field only when the question is missing or falsy: the message of a
    request with a question is not sent, and a request with a message alone
    is handled as the first server of part_003 handles it. *)
Theorem legacy_message_equivalence (req : jsobj) (up : upstream) :
  (ToBoolean (get req "question") = true ->
   map messages (upstream_calls (index_js.ask req up))
   = [ [ {| role := system; content := JStr "You are the AI Vault Coach." |};
         {| role := user; content := get req "question" |} ] ])
  /\ (ToBoolean (get req "question") = false ->
      ToBoolean (get req "message") = true ->
      index_js.ask req up = part_003_a.ask req up).
Proof.
  unfold index_js.ask, part_003_a.ask, or_else. split.
  - intros Hq. rewrite Hq. cbv zeta. rewrite Hq. now destruct up.
  - intros Hq Hm. rewrite Hq. cbv zeta. now rewrite Hm.
Qed.

Lemma legacy_message_equivalence_witness :
  index_js.ask [("message", JStr "Hello")] (Resolves (completion_with "Hi!"))
  = part_003_a.ask [("message", JStr "Hello")] (Resolves (completion_with "Hi!")).
Proof.
  apply (proj2 (legacy_message_equivalence [("message", JStr "Hello")]
                  (Resolves (completion_with "Hi!"))) eq_refl eq_refl).
Defined.

(** With a caller system prompt the /ask of part_001 handles every request as
    the /ask of part_000 does: the vaultType field is not converted, and has
    no effect. *)
Theorem caller_prompt_versions_agree
    (Number_toString : number -> string) (req : jsobj) (up : upstream) :
  ToBoolean (get req "systemPrompt") = true ->
  part_001.ask Number_toString req up = part_000.ask Number_toString req up.
Proof.
  intros Hp. unfold part_001.ask, part_000.ask, part_001.system_prompt, or_else.
  rewrite Hp. reflexivity.
Qed.

Lemma caller_prompt_versions_agree_witness :
  part_001.ask Number_toString_integer
    [("question", JStr "Hi"); ("systemPrompt", JStr "Be brief.");
     ("vaultType", JObj [("toString", JNull)])] Rejects
  = part_000.ask Number_toString_integer
      [("question", JStr "Hi"); ("systemPrompt", JStr "Be brief.");
       ("vaultType", JObj [("toString", JNull)])] Rejects.
Proof.
  apply (caller_prompt_versions_agree Number_toString_integer
           [("question", JStr "Hi"); ("systemPrompt", JStr "Be brief.");
            ("vaultType", JObj [("toString", JNull)])] Rejects eq_refl).
Defined.

(** ** Overlapping requests *)

(** The handler in one piece is its two pieces run without interruption. *)
Lemma ask_in_two_pieces (body : jsobj) (up : upstream) (history : list turn) :
  part_004.ask body up history
  = match part_004.ask_until_await body history with
    | (inl o, h) => (o, h)
    | (inr call, h) => part_004.ask_after_await call up h
    end.
Proof.
  unfold part_004.ask, part_004.ask_until_await, part_004.ask_after_await.
  destruct (negb (ToBoolean _)); [reflexivity|]. now destruct up.
Qed.

(** Requests handled one at a time are a run of [serve]. *)
Lemma handle_one_at_a_time (requests : list (jsobj * upstream)) (p : process) :
  awaiting p = [] ->
  handle p (one_at_a_time requests)
  = {| history_of := snd (serve part_004.ask requests (history_of p));
       awaiting := [];
       answered := (answered p ++ fst (serve part_004.ask requests (history_of p)))%list |}.
Proof.
  revert p. induction requests as [|[body up] rest IH]; intros [h w a] Hw;
    cbn [awaiting history_of answered] in *; subst w.
  - cbn. now rewrite app_nil_r.
  - cbn [one_at_a_time flat_map app handle fold_left serve].
    change (fold_left step (flat_map (fun '(body, up) => [Arrives body; Settles 0 up]) rest))
      with (fun q => handle q (one_at_a_time rest)). cbv beta.
    rewrite ask_in_two_pieces. cbn [step history_of awaiting answered].
    destruct (part_004.ask_until_await body h) as [[o|call] h1];
      cbn [step history_of awaiting answered nth_error app].
    + rewrite IH by reflexivity. cbn [history_of answered].
      destruct (serve part_004.ask rest h1) as [os h']. cbn [fst snd].
      now rewrite <- app_assoc.
    + destruct (part_004.ask_after_await call up h1) as [o h2].
      cbn [remove_nth]. rewrite IH by reflexivity. cbn [history_of answered].
      destruct (serve part_004.ask rest h2) as [os h']. cbn [fst snd].
      now rewrite <- app_assoc.
Qed.

(** No event takes the history beyond 6 turns. *)
Lemma step_history_bound (p : process) (ev : event) :
  (List.length (history_of p) <= 6)%nat ->
  (List.length (history_of (step p ev)) <= 6)%nat.
Proof.
  intros H. destruct ev as [body|n up]; cbn [step].
  - unfold part_004.ask_until_await.
    destruct (negb (ToBoolean _)); [exact H|]. cbn [history_of].
    pose proof (user_push_window (history_of p)
                  {| role := user;
                     content := or_else (get body "question") (get body "message") |}) as Hw.
    cbv zeta in Hw. lia.
  - destruct (nth_error (awaiting p) n) as [call|]; [|exact H].
    destruct up as [|c]; cbn [part_004.ask_after_await history_of]; [exact H|].
    destruct (6 <? _)%nat eqn:E.
    + apply slice_last_le.
    + now apply Nat.ltb_ge in E.
Qed.

(** The conversationHistory of part_004 holds at most 6 turns after any
    events, whatever requests overlap and whatever the completion API does.
    With requests handled one at a time it holds at most 4; overlapping
    requests take it to 6. *)
Theorem history_bound_with_overlap (p : process) (events : list event)
    (requests : list (jsobj * upstream)) :
  ((List.length (history_of p) <= 6)%nat ->
   (List.length (history_of (handle p events)) <= 6)%nat)
  /\ (awaiting p = [] -> (List.length (history_of p) <= 4)%nat ->
      (List.length (history_of (handle p (one_at_a_time requests))) <= 4)%nat)
  /\ exists overlapping,
       List.length (history_of (handle fresh_process overlapping)) = 6%nat.
Proof.
  repeat apply conj.
  - revert p. unfold handle.
    induction events as [|ev rest IH]; intros p H; cbn [fold_left]; [exact H|].
    apply IH. now apply step_history_bound.
  - intros Hw H. rewrite handle_one_at_a_time by exact Hw. cbn [history_of].
    now apply served_history_bound.
  - exists [ Arrives [("question", JStr "q1")]; Arrives [("question", JStr "q2")];
             Arrives [("question", JStr "q3")];
             Settles 0 (Resolves (completion_with "r1"));
             Settles 0 (Resolves (completion_with "r2"));
             Settles 0 (Resolves (completion_with "r3")) ].
    reflexivity.
Qed.

Lemma history_bound_with_overlap_witness :
  (List.length
     (history_of
        (handle fresh_process
           [ Arrives [("question", JStr "q1")]; Arrives [("question", JStr "q2")];
             Arrives [("question", JStr "q3")]; Arrives [("question", JStr "q4")];
             Settles 2 (Resolves (completion_with "r3"));
             Settles 0 (Resolves (completion_with "r1"));
             Settles 0 Rejects;
             Settles 0 (Resolves (completion_with "r4")) ])) <= 6)%nat.
Proof.
  apply (proj1 (history_bound_with_overlap fresh_process
                  [ Arrives [("question", JStr "q1")]; Arrives [("question", JStr "q2")];
                    Arrives [("question", JStr "q3")]; Arrives [("question", JStr "q4")];
                    Settles 2 (Resolves (completion_with "r3"));
                    Settles 0 (Resolves (completion_with "r1"));
                    Settles 0 Rejects;
                    Settles 0 (Resolves (completion_with "r4")) ] [])).
  simpl. lia.
Defined.
